(** * Schema layer of SimpleMicroservices: Assignment, Coursework, Person

    Shallow embedding of the pydantic models of [src/models/assignment.py]
    and [src/models/coursework.py].  A pydantic model class is a list of
    field declarations (name, annotated type, default); validation of a
    JSON-like document against a model follows pydantic's model-fields
    validator: each declared field is looked up in the input, validated when
    present, defaulted when absent (with a [default_factory] called at that
    point), and every field error is collected with its location.
    [default_factory=uuid4] and [default_factory=datetime.utcnow] read the
    process' random source and clock: they are modelled by explicit state
    passing over a generator state [gen]. *)

From Stdlib Require Import ZArith List String Ascii Bool Lia.
Import ListNotations.
Open Scope string_scope.
Open Scope list_scope.
Open Scope Z_scope.
Set Warnings "-register-all".

(** ** JSON-like documents (the input of [model_validate] and the output
    of [model_dump(mode="json")]) *)

Inductive json : Type :=
| JNull
| JBool (b : bool)
| JNum (z : Z)
| JStr (s : string)
| JArr (l : list json)
| JObj (kvs : list (string * json)).

(** Dictionary lookup of a key in a JSON object. *)
Fixpoint lookup {A} (k : string) (kvs : list (string * A)) : option A :=
  match kvs with
  | [] => None
  | (k', v) :: rest => if String.eqb k k' then Some v else lookup k rest
  end.

(** ** Fixed-width digit strings *)

(** Big-endian base-[b] digits of [z], exactly [n] of them. *)
Fixpoint digits (b : Z) (n : nat) (z : Z) : list Z :=
  match n with
  | O => []
  | S n' => digits b n' (z / b) ++ [z mod b]
  end.

Definition from_digits (b : Z) (ds : list Z) : Z :=
  fold_left (fun acc d => acc * b + d) ds 0.

Definition dec_char (d : Z) : ascii := ascii_of_nat (Z.to_nat (48 + d)).

Definition dec_val (c : ascii) : option Z :=
  let n := Z.of_nat (nat_of_ascii c) in
  if (48 <=? n) && (n <=? 57) then Some (n - 48) else None.

(** [uuid.UUID.__str__] writes lowercase hexadecimal digits. *)
Definition hex_char (d : Z) : ascii :=
  if d <? 10 then dec_char d else ascii_of_nat (Z.to_nat (87 + d)).

(** UUID parsing accepts both cases of hexadecimal digits. *)
Definition hex_val (c : ascii) : option Z :=
  let n := Z.of_nat (nat_of_ascii c) in
  if (48 <=? n) && (n <=? 57) then Some (n - 48)
  else if (97 <=? n) && (n <=? 102) then Some (n - 87)
  else if (65 <=? n) && (n <=? 70) then Some (n - 55)
  else None.

(** Read exactly [n] digit characters. *)
Fixpoint take_digits (val : ascii -> option Z) (n : nat) (cs : list ascii)
  : option (list Z * list ascii) :=
  match n with
  | O => Some ([], cs)
  | S n' =>
      match cs with
      | [] => None
      | c :: cs' =>
          match val c with
          | None => None
          | Some d =>
              match take_digits val n' cs' with
              | None => None
              | Some (ds, rest) => Some (d :: ds, rest)
              end
          end
      end
  end.

(** Read between one and [n] decimal digits, greedily. *)
Fixpoint take_upto (n : nat) (cs : list ascii) : list Z * list ascii :=
  match n, cs with
  | S n', c :: cs' =>
      match dec_val c with
      | Some d => let '(ds, rest) := take_upto n' cs' in (d :: ds, rest)
      | None => ([], cs)
      end
  | _, _ => ([], cs)
  end.

(** Fixed-width decimal number reader. *)
Definition num (n : nat) (cs : list ascii) : option (Z * list ascii) :=
  match take_digits dec_val n cs with
  | Some (ds, rest) => Some (from_digits 10 ds, rest)
  | None => None
  end.

Definition expect (c : ascii) (cs : list ascii) : option (list ascii) :=
  match cs with
  | c' :: rest => if Ascii.eqb c c' then Some rest else None
  | [] => None
  end.

Definition fmt_num (n : nat) (z : Z) : list ascii := map dec_char (digits 10 n z).

(** ** UUIDs ([uuid.UUID]) as 128-bit integers *)

(** [uuid4()]: sixteen random bytes read as a big-endian integer, then the
    RFC 4122 variant bits and the version nibble 4 set, exactly as
    [UUID.__init__(bytes=os.urandom(16), version=4)] does. *)
Definition uuid4_of (r : Z) : Z :=
  let x := r mod 2 ^ 128 in
  let x := Z.land x (Z.lnot (Z.shiftl 49152 48)) in    (* ~(0xc000 << 48) *)
  let x := Z.lor x (Z.shiftl 32768 48) in              (* 0x8000 << 48 *)
  let x := Z.land x (Z.lnot (Z.shiftl 61440 64)) in    (* ~(0xf000 << 64) *)
  Z.lor x (Z.shiftl 4 76).

(** A 128-bit value; a version-4 RFC 4122 UUID in addition when [uuid_v4_ok]. *)
Definition uuid_ok (u : Z) : bool := (0 <=? u) && (u <? 2 ^ 128).

Definition uuid_v4_ok (u : Z) : bool :=
  uuid_ok u
  && (Z.land (Z.shiftr u 76) 15 =? 4)
  && (Z.land (Z.shiftr u 62) 3 =? 2).

(** [str(uuid)]: 8-4-4-4-12 lowercase hexadecimal digits. *)
Definition fmt_uuid (u : Z) : list ascii :=
  let hs := map hex_char (digits 16 32 u) in
  firstn 8 hs ++ "-"%char :: firstn 4 (skipn 8 hs) ++ "-"%char
  :: firstn 4 (skipn 12 hs) ++ "-"%char :: firstn 4 (skipn 16 hs)
  ++ "-"%char :: skipn 20 hs.

(** Parsing of a UUID string: hyphenated (36 characters) or plain
    (32 characters) hexadecimal of either case. *)
Definition parse_hex_all (cs : list ascii) : option Z :=
  match take_digits hex_val 32 cs with
  | Some (ds, []) => Some (from_digits 16 ds)
  | _ => None
  end.

Definition parse_uuid (cs : list ascii) : option Z :=
  if Nat.eqb (List.length cs) 36 then
    if Ascii.eqb (List.nth 8 cs "a"%char) "-"%char
       && Ascii.eqb (List.nth 13 cs "a"%char) "-"%char
       && Ascii.eqb (List.nth 18 cs "a"%char) "-"%char
       && Ascii.eqb (List.nth 23 cs "a"%char) "-"%char
    then parse_hex_all (firstn 8 cs ++ firstn 4 (skipn 9 cs)
                        ++ firstn 4 (skipn 14 cs) ++ firstn 4 (skipn 19 cs)
                        ++ skipn 24 cs)
    else None
  else parse_hex_all cs.

(** ** Calendar dates and datetimes ([datetime.date], [datetime.datetime]) *)

Record date := mkdate { year : Z; month : Z; day : Z }.

Definition is_leap (y : Z) : bool :=
  ((y mod 4 =? 0) && negb (y mod 100 =? 0)) || (y mod 400 =? 0).

Definition days_in_month (y m : Z) : Z :=
  if m =? 2 then (if is_leap y then 29 else 28)
  else if (m =? 4) || (m =? 6) || (m =? 9) || (m =? 11) then 30
  else 31.

Definition date_ok (d : date) : bool :=
  (1 <=? year d) && (year d <=? 9999)
  && (1 <=? month d) && (month d <=? 12)
  && (1 <=? day d) && (day d <=? days_in_month (year d) (month d)).

(** A datetime; [tz] is the UTC offset in minutes, [None] for a naive
    datetime such as the one [datetime.utcnow()] returns. *)
Record datetime := mkdt {
  dt_date : date; hour : Z; minute : Z; second : Z; micro : Z;
  tz : option Z }.

Definition dt_ok (t : datetime) : bool :=
  date_ok (dt_date t)
  && (0 <=? hour t) && (hour t <? 24)
  && (0 <=? minute t) && (minute t <? 60)
  && (0 <=? second t) && (second t <? 60)
  && (0 <=? micro t) && (micro t <? 1000000)
  && match tz t with None => true | Some o => (-1440 <? o) && (o <? 1440) end.

(** [date.isoformat()]: YYYY-MM-DD. *)
Definition fmt_date (d : date) : list ascii :=
  fmt_num 4 (year d) ++ "-"%char :: fmt_num 2 (month d) ++ "-"%char
  :: fmt_num 2 (day d).

Definition parse_date_prefix (cs : list ascii) : option (date * list ascii) :=
  match num 4 cs with
  | None => None
  | Some (y, cs) =>
  match expect "-" cs with
  | None => None
  | Some cs =>
  match num 2 cs with
  | None => None
  | Some (m, cs) =>
  match expect "-" cs with
  | None => None
  | Some cs =>
  match num 2 cs with
  | None => None
  | Some (d, cs) => Some (mkdate y m d, cs)
  end end end end end.

Definition parse_date (cs : list ascii) : option date :=
  match parse_date_prefix cs with
  | Some (d, []) => if date_ok d then Some d else None
  | _ => None
  end.

(** JSON serialisation of a datetime: ISO 8601, the fraction only when the
    microsecond is non-zero, [Z] for a zero offset, [+HH:MM] / [-HH:MM]
    otherwise, nothing for a naive datetime. *)
Definition fmt_tz (o : option Z) : list ascii :=
  match o with
  | None => []
  | Some off =>
      if off =? 0 then ["Z"%char]
      else (if off <? 0 then "-"%char else "+"%char)
           :: fmt_num 2 (Z.abs off / 60) ++ ":"%char :: fmt_num 2 (Z.abs off mod 60)
  end.

Definition fmt_datetime (t : datetime) : list ascii :=
  fmt_date (dt_date t) ++ "T"%char :: fmt_num 2 (hour t) ++ ":"%char
  :: fmt_num 2 (minute t) ++ ":"%char :: fmt_num 2 (second t)
  ++ (if micro t =? 0 then [] else "."%char :: fmt_num 6 (micro t))
  ++ fmt_tz (tz t).

Definition parse_tz (cs : list ascii) : option (option Z) :=
  match cs with
  | [] => Some None
  | c :: rest =>
      if Ascii.eqb c "Z" || Ascii.eqb c "z" then
        match rest with [] => Some (Some 0) | _ => None end
      else if Ascii.eqb c "+" || Ascii.eqb c "-" then
        match num 2 rest with
        | None => None
        | Some (h, cs) =>
        match expect ":" cs with
        | None => None
        | Some cs =>
        match num 2 cs with
        | Some (m, []) =>
            if (h <? 24) && (m <? 60) then
              Some (Some (if Ascii.eqb c "-" then - (h * 60 + m) else h * 60 + m))
            else None
        | _ => None
        end end end
      else None
  end.

(** Optional [.f] .. [.ffffff] fraction, scaled to microseconds. *)
Definition parse_fraction (cs : list ascii) : option (Z * list ascii) :=
  match cs with
  | c :: rest =>
      if Ascii.eqb c "." then
        match take_upto 6 rest with
        | ([], _) => None
        | (ds, rest') =>
            Some (from_digits 10 ds * 10 ^ (6 - Z.of_nat (List.length ds)), rest')
        end
      else Some (0, cs)
  | [] => Some (0, [])
  end.

Definition parse_datetime (cs : list ascii) : option datetime :=
  match parse_date_prefix cs with
  | None => None
  | Some (d, cs) =>
  match cs with
  | [] => None
  | sep :: cs =>
  if Ascii.eqb sep "T" || Ascii.eqb sep "t" || Ascii.eqb sep " " then
  match num 2 cs with
  | None => None
  | Some (h, cs) =>
  match expect ":" cs with
  | None => None
  | Some cs =>
  match num 2 cs with
  | None => None
  | Some (mi, cs) =>
  let '(s, cs) := match expect ":" cs with
                  | Some cs' => match num 2 cs' with
                                | Some (s, cs'') => (Some s, cs'')
                                | None => (None, cs)
                                end
                  | None => (Some 0, cs)
                  end in
  match s with
  | None => None
  | Some s =>
  match parse_fraction cs with
  | None => None
  | Some (us, cs) =>
  match parse_tz cs with
  | None => None
  | Some o =>
      let t := mkdt d h mi s us o in
      if dt_ok t then Some t else None
  end end end end end end
  else None
  end end.

(** ** Field types, defaults, validated values *)

(** The [default_factory] callables used by the models. *)
Inductive factory : Type := FUuid4 | FUtcnow | FList.

(** [Field(...)] (required), [Field(None)], [Field(default_factory=f)]. *)
Inductive default : Type :=
| Required
| DefNone
| DefFactory (f : factory).

(** Annotated field types.  [TStr1] is a [str] with [min_length=1] and
    [TEmail] an e-mail string; both occur only in the Person model. *)
Inductive ty : Type :=
| TStr | TStr1 | TEmail | TUuid | TDate | TDateTime
| TOpt (t : ty)
| TList (t : ty)
| TModel (fs : list (string * ty * default)).

(** A constructed model instance keeps its field values (its [__dict__], in
    declaration order) and its [model_fields_set]: the fields that were
    present in the input. *)
Inductive val : Type :=
| VStr (s : string)
| VUuid (u : Z)
| VDate (d : date)
| VDateTime (t : datetime)
| VNone
| VList (vs : list val)
| VModel (fs : list (string * val)) (set : list string).

(** Validation errors: a location (field names and list indices) and an
    error type, as in pydantic's [ValidationError.errors()]. *)
Inductive loc_item : Type := LKey (k : string) | LIdx (i : nat).

Record error := mkerr { loc : list loc_item; kind : string }.

Inductive res : Type := Ok (v : val) | Err (es : list error).

Definition err1 (k : string) : res := Err [mkerr [] k].

Definition prefix (li : loc_item) (es : list error) : list error :=
  map (fun e => mkerr (li :: loc e) (kind e)) es.

(** ** Generator state: the random source of [uuid4] and the clock of
    [datetime.utcnow] *)

(** A clock reading is always a valid naive-or-aware datetime. *)
Record vdt := mkvdt { vdt_val : datetime; vdt_ok : dt_ok vdt_val = true }.

Record gen := mkgen {
  rng : nat -> Z;        (* successive 16-byte draws of [os.urandom] *)
  rpos : nat;            (* draws consumed so far *)
  clock : nat -> vdt;    (* successive readings of the UTC clock *)
  tick : nat }.          (* readings taken so far *)

Definition M (A : Type) : Type := gen -> A * gen.

Definition ret {A} (a : A) : M A := fun g => (a, g).

Definition bind {A B} (m : M A) (k : A -> M B) : M B :=
  fun g => let '(a, g') := m g in k a g'.

Notation "x <- m ;; k" := (bind m (fun x => k))
  (at level 61, m at next level, right associativity).

Definition uuid4 : M Z :=
  fun g => (uuid4_of (rng g (rpos g)), mkgen (rng g) (S (rpos g)) (clock g) (tick g)).

Definition utcnow : M datetime :=
  fun g => (vdt_val (clock g (tick g)), mkgen (rng g) (rpos g) (clock g) (S (tick g))).

Definition run_factory (f : factory) : M val :=
  match f with
  | FUuid4 => u <- uuid4;; ret (VUuid u)
  | FUtcnow => t <- utcnow;; ret (VDateTime t)
  | FList => ret (VList [])
  end.

(** ** E-mail addresses *)

Fixpoint split_on (c : ascii) (cs : list ascii) : list ascii * option (list ascii) :=
  match cs with
  | [] => ([], None)
  | x :: r => if Ascii.eqb x c then ([], Some r)
              else let '(a, b) := split_on c r in (x :: a, b)
  end.

(** Modelled from the spec: [person.py] (the [PersonBase] model) is not part
    of the sources; the spec (4.2) asks that [email] be validated as a
    syntactically well-formed address.  Well-formed: one [@], a non-empty
    local part, a domain with a dot that neither starts nor ends with one. *)
Definition email_ok (s : string) : bool :=
  match split_on "@" (list_ascii_of_string s) with
  | (local, Some domain) =>
      negb (match local with [] => true | _ => false end)
      && negb (existsb (Ascii.eqb "@") domain)
      && existsb (Ascii.eqb ".") domain
      && negb (Ascii.eqb (hd "."%char domain) ".")
      && negb (Ascii.eqb (last domain "."%char) ".")
  | _ => false
  end.

(** ** Validation *)

(** List items, each validated in turn; errors are located by index. *)
Fixpoint validate_items (vt : json -> M res) (i : nat) (js : list json)
  : M (list val * list error) :=
  match js with
  | [] => ret ([], [])
  | j :: rest =>
      r <- vt j;;
      p <- validate_items vt (S i) rest;;
      ret (match r with
           | Ok v => (v :: fst p, snd p)
           | Err e => (fst p, prefix (LIdx i) e ++ snd p)
           end)
  end.

(** The model-fields loop: every declared field in order; present fields
    are validated and recorded in the fields set, absent ones take their
    default (calling the factory now) or report [missing].  Keys of the
    input that are not fields are ignored ([extra="ignore"]). *)
Fixpoint validate_fields (vt : ty -> json -> M res) (kvs : list (string * json))
  (fs : list (string * ty * default))
  : M (list (string * val) * list string * list error) :=
  match fs with
  | [] => ret ([], [], [])
  | (n, t, d) :: rest =>
      match lookup n kvs with
      | Some j =>
          r <- vt t j;;
          p <- validate_fields vt kvs rest;;
          let '(out, set, es) := p in
          ret (match r with
               | Ok v => ((n, v) :: out, n :: set, es)
               | Err e => (out, set, prefix (LKey n) e ++ es)
               end)
      | None =>
          match d with
          | Required =>
              p <- validate_fields vt kvs rest;;
              let '(out, set, es) := p in
              ret (out, set, mkerr [LKey n] "missing" :: es)
          | DefNone =>
              p <- validate_fields vt kvs rest;;
              let '(out, set, es) := p in
              ret ((n, VNone) :: out, set, es)
          | DefFactory f =>
              v <- run_factory f;;
              p <- validate_fields vt kvs rest;;
              let '(out, set, es) := p in
              ret ((n, v) :: out, set, es)
          end
      end
  end.

Definition validate_str (k : string -> res) (j : json) : res :=
  match j with JStr s => k s | _ => err1 "string_type" end.

Fixpoint validate (t : ty) (j : json) {struct t} : M res :=
  match t with
  | TStr => ret (validate_str (fun s => Ok (VStr s)) j)
  | TStr1 => ret (validate_str (fun s =>
                    if String.eqb s "" then err1 "string_too_short" else Ok (VStr s)) j)
  | TEmail => ret (validate_str (fun s =>
                    if email_ok s then Ok (VStr s) else err1 "value_error") j)
  | TUuid => ret (match j with
                  | JStr s => match parse_uuid (list_ascii_of_string s) with
                              | Some u => Ok (VUuid u)
                              | None => err1 "uuid_parsing"
                              end
                  | _ => err1 "uuid_type"
                  end)
  | TDate => ret (match j with
                  | JStr s => match parse_date (list_ascii_of_string s) with
                              | Some d => Ok (VDate d)
                              | None => err1 "date_parsing"
                              end
                  | _ => err1 "date_type"
                  end)
  | TDateTime => ret (match j with
                      | JStr s => match parse_datetime (list_ascii_of_string s) with
                                  | Some d => Ok (VDateTime d)
                                  | None => err1 "datetime_parsing"
                                  end
                      | _ => err1 "datetime_type"
                      end)
  | TOpt t' => match j with JNull => ret (Ok VNone) | _ => validate t' j end
  | TList t' =>
      match j with
      | JArr js =>
          p <- validate_items (validate t') 0 js;;
          ret (match snd p with [] => Ok (VList (fst p)) | es => Err es end)
      | _ => ret (err1 "list_type")
      end
  | TModel fs =>
      match j with
      | JObj kvs =>
          p <- validate_fields validate kvs fs;;
          let '(out, set, es) := p in
          ret (match es with [] => Ok (VModel out set) | _ => Err es end)
      | _ => ret (err1 "model_type")
      end
  end.

(** [model_dump(mode="json")]. *)
Fixpoint ser (v : val) : json :=
  match v with
  | VStr s => JStr s
  | VUuid u => JStr (string_of_list_ascii (fmt_uuid u))
  | VDate d => JStr (string_of_list_ascii (fmt_date d))
  | VDateTime t => JStr (string_of_list_ascii (fmt_datetime t))
  | VNone => JNull
  | VList vs => JArr (map ser vs)
  | VModel fs _ => JObj (map (fun kv => (fst kv, ser (snd kv))) fs)
  end.

(** ** Models *)

Definition field := (string * ty * default)%type.

Definition fname (f : field) : string := fst (fst f).
Definition names (fs : list field) : list string := map fname fs.

(** Subclassing: a re-declared field replaces the inherited one in place,
    a new field is appended after the inherited ones. *)
Definition upsert (fs : list field) (f : field) : list field :=
  if existsb (fun g => String.eqb (fname g) (fname f)) fs
  then map (fun g => if String.eqb (fname g) (fname f) then f else g) fs
  else fs ++ [f].

Definition extend (base own : list field) : list field := fold_left upsert own base.

(** Modelled from the spec: [person.py] is not part of the sources; the
    spec (4.1) gives Address a server-default UUID [id] and fields that are
    only type-checked when provided, [state] nullable. *)
Definition Address_fields : list field :=
  [("id", TUuid, DefFactory FUuid4);
   ("street", TOpt TStr, DefNone);
   ("city", TOpt TStr, DefNone);
   ("state", TOpt TStr, DefNone);
   ("postal_code", TOpt TStr, DefNone);
   ("country", TOpt TStr, DefNone)].

Definition Address : ty := TModel Address_fields.

(** Modelled from the spec: [PersonBase] of [person.py] (spec 4.2): [uni]
    required and non-empty, [email] required and a well-formed address,
    [addresses] defaulting to the empty list; the spec gives no default for
    the names, they are required strings here. *)
Definition PersonBase_fields : list field :=
  [("uni", TStr1, Required);
   ("first_name", TStr, Required);
   ("last_name", TStr, Required);
   ("email", TEmail, Required);
   ("addresses", TList Address, DefFactory FList)].

Definition PersonBase : ty := TModel PersonBase_fields.

(** [class CourseworkBase(BaseModel)] *)
Definition CourseworkBase_fields : list field :=
  [("id", TUuid, DefFactory FUuid4);
   ("title", TStr, Required);
   ("semester", TStr, Required);
   ("professor", PersonBase, Required);
   ("people", TList PersonBase, DefFactory FList)].

Definition CourseworkBase : ty := TModel CourseworkBase_fields.

(** [class CourseworkCreate(CourseworkBase)]: no field of its own. *)
Definition CourseworkCreate_fields : list field := extend CourseworkBase_fields [].
Definition CourseworkCreate : ty := TModel CourseworkCreate_fields.

(** [class CourseworkUpdate(BaseModel)] *)
Definition CourseworkUpdate_fields : list field :=
  [("title", TOpt TStr, DefNone);
   ("semester", TOpt TStr, DefNone);
   ("professor", TOpt PersonBase, DefNone);
   ("people", TOpt (TList PersonBase), DefNone);
   ("created_at", TDateTime, DefFactory FUtcnow)].

Definition CourseworkUpdate : ty := TModel CourseworkUpdate_fields.

(** [class CourseworkRead(CourseworkBase)]: re-declares [id], adds
    [updated_at]. *)
Definition CourseworkRead_fields : list field :=
  extend CourseworkBase_fields
    [("id", TUuid, DefFactory FUuid4);
     ("updated_at", TDateTime, DefFactory FUtcnow)].

Definition CourseworkRead : ty := TModel CourseworkRead_fields.

(** [class AssignmentBase(BaseModel)] *)
Definition AssignmentBase_fields : list field :=
  [("id", TUuid, DefFactory FUuid4);
   ("title", TStr, Required);
   ("description", TStr, Required);
   ("due_date", TDate, Required);
   ("coursework", CourseworkBase, Required);
   ("created_at", TDateTime, DefFactory FUtcnow)].

Definition AssignmentBase : ty := TModel AssignmentBase_fields.

(** [class AssignmentCreate(AssignmentBase)]: no field of its own. *)
Definition AssignmentCreate_fields : list field := extend AssignmentBase_fields [].
Definition AssignmentCreate : ty := TModel AssignmentCreate_fields.

(** [class AssignmentUpdate(BaseModel)]: note [id] is [Optional[UUID]] with
    [default_factory=uuid4], the other fields default to [None]. *)
Definition AssignmentUpdate_fields : list field :=
  [("id", TOpt TUuid, DefFactory FUuid4);
   ("title", TOpt TStr, DefNone);
   ("description", TOpt TStr, DefNone);
   ("due_date", TOpt TDate, DefNone);
   ("coursework", TOpt CourseworkBase, DefNone);
   ("created_at", TOpt TDateTime, DefNone)].

Definition AssignmentUpdate : ty := TModel AssignmentUpdate_fields.

(** [class AssignmentRead(AssignmentBase)]: re-declares [id] and
    [created_at], adds [updated_at]. *)
Definition AssignmentRead_fields : list field :=
  extend AssignmentBase_fields
    [("id", TUuid, DefFactory FUuid4);
     ("created_at", TDateTime, DefFactory FUtcnow);
     ("updated_at", TDateTime, DefFactory FUtcnow)].

Definition AssignmentRead : ty := TModel AssignmentRead_fields.

(** Whether a model declares a field of that name. *)
Definition carries (fs : list field) (n : string) : bool :=
  existsb (String.eqb n) (names fs).

(** Field value of a constructed model. *)
Definition get (n : string) (v : val) : option val :=
  match v with VModel fs _ => lookup n fs | _ => None end.

Definition fields_set (v : val) : list string :=
  match v with VModel _ set => set | _ => [] end.

(** pydantic's [==] on models compares the field values only, not
    [model_fields_set]; [erase] forgets the fields sets everywhere. *)
Fixpoint erase (v : val) : val :=
  match v with
  | VList vs => VList (map erase vs)
  | VModel fs _ => VModel (map (fun kv => (fst kv, erase (snd kv))) fs) []
  | _ => v
  end.

(** ** Well-formed values and schemas *)

Fixpoint wt_fields (wt : ty -> val -> bool) (fs : list field)
  (kvs : list (string * val)) : bool :=
  match fs, kvs with
  | [], [] => true
  | ((n, t), _) :: fs', (k, v) :: kvs' => String.eqb n k && wt t v && wt_fields wt fs' kvs'
  | _, _ => false
  end.

(** [wtb t v]: [v] is a value of the annotated type [t] (what a successful
    validation against [t] can produce). *)
Fixpoint wtb (t : ty) (v : val) {struct t} : bool :=
  match t with
  | TStr => match v with VStr _ => true | _ => false end
  | TStr1 => match v with VStr s => negb (String.eqb s "") | _ => false end
  | TEmail => match v with VStr s => email_ok s | _ => false end
  | TUuid => match v with VUuid u => uuid_ok u | _ => false end
  | TDate => match v with VDate d => date_ok d | _ => false end
  | TDateTime => match v with VDateTime x => dt_ok x | _ => false end
  | TOpt t' => match v with VNone => true | _ => wtb t' v end
  | TList t' => match v with VList vs => forallb (wtb t') vs | _ => false end
  | TModel fs => match v with VModel kvs _ => wt_fields wtb fs kvs | _ => false end
  end.

Fixpoint nodupb (l : list string) : bool :=
  match l with
  | [] => true
  | x :: r => negb (existsb (String.eqb x) r) && nodupb r
  end.

(** Each default produces a value of its field's type. *)
Definition default_ok (t : ty) (d : default) : bool :=
  match d with
  | Required => true
  | DefNone => match t with TOpt _ => true | _ => false end
  | DefFactory FUuid4 => match t with TUuid | TOpt TUuid => true | _ => false end
  | DefFactory FUtcnow => match t with TDateTime | TOpt TDateTime => true | _ => false end
  | DefFactory FList => match t with TList _ | TOpt (TList _) => true | _ => false end
  end.

(** Field names distinct and defaults well-typed, in every nested model. *)
Fixpoint ty_ok (t : ty) : bool :=
  match t with
  | TOpt t' | TList t' => ty_ok t'
  | TModel fs =>
      nodupb (names fs)
      && forallb (fun '((_, t'), d) => default_ok t' d && ty_ok t') fs
  | _ => true
  end.

(** The value a successful re-validation builds: every field set. *)
Fixpoint fill (v : val) : val :=
  match v with
  | VList vs => VList (map fill vs)
  | VModel kvs _ => VModel (map (fun kv => (fst kv, fill (snd kv))) kvs) (map fst kvs)
  | _ => v
  end.

(** ** A concrete generator state for examples *)

Definition noon : datetime := mkdt (mkdate 2025 1 15) 12 0 0 0 None.

Lemma noon_ok : dt_ok noon = true.
Proof. reflexivity. Qed.

Definition gen0 : gen :=
  mkgen (fun n => 7919 * Z.of_nat n + 104729) 0 (fun _ => mkvdt noon noon_ok) 0.

(** The input document of the end-to-end example of the spec (section 8),
    built from its nested parts. *)
Definition professor_doc (email : string) : list (string * json) :=
  [("uni", JStr "df123"); ("first_name", JStr "Donald");
   ("last_name", JStr "Ferguson"); ("email", JStr email)].

Definition coursework_doc (prof : list (string * json)) : list (string * json) :=
  [("title", JStr "CC"); ("semester", JStr "Fall 2025"); ("professor", JObj prof)].

Definition assignment_doc (cw : list (string * json)) : list (string * json) :=
  [("title", JStr "HW1"); ("description", JStr "...");
   ("due_date", JStr "2025-12-31"); ("coursework", JObj cw)].

Definition hw1_doc : list (string * json) :=
  assignment_doc (coursework_doc (professor_doc "d@f.edu")).

Definition hw1_input : json := JObj hw1_doc.

(** A client-supplied identifier. *)
Definition sample_uuid : string := "12345678-1234-4234-8234-123456789abc".

(** ** Auxiliary notions *)

(** Whether a key is present in an input object. *)
Definition present (kvs : list (string * json)) (n : string) : bool :=
  match lookup n kvs with Some _ => true | None => false end.

(** Whether validating against a type may read the clock: some model
    inside it has a field defaulting to [utcnow]. *)
Fixpoint uses_clock (t : ty) : bool :=
  match t with
  | TOpt t' | TList t' => uses_clock t'
  | TModel fs =>
      existsb (fun f : field =>
                 match snd f with DefFactory FUtcnow => true | _ => false end
                 || uses_clock (snd (fst f))) fs
  | _ => false
  end.

(** The declaration (type and default) of a field, by name. *)
Definition decl (n : string) (fs : list field) : option (ty * default) :=
  lookup n (map (fun f : field => (fname f, (snd (fst f), snd f))) fs).

Definition tz_ok (o : option Z) : bool :=
  match o with None => true | Some off => (-1440 <? off) && (off <? 1440) end.

Section ty_induction.
Variable P : ty -> Prop.
Hypothesis HStr : P TStr.
Hypothesis HStr1 : P TStr1.
Hypothesis HEmail : P TEmail.
Hypothesis HUuid : P TUuid.
Hypothesis HDate : P TDate.
Hypothesis HDateTime : P TDateTime.
Hypothesis HOpt : forall t, P t -> P (TOpt t).
Hypothesis HList : forall t, P t -> P (TList t).
Hypothesis HModel : forall fs, Forall (fun f : field => P (snd (fst f))) fs -> P (TModel fs).

Fixpoint ty_ind' (t : ty) : P t :=
  match t with
  | TStr => HStr | TStr1 => HStr1 | TEmail => HEmail | TUuid => HUuid
  | TDate => HDate | TDateTime => HDateTime
  | TOpt t' => HOpt t' (ty_ind' t')
  | TList t' => HList t' (ty_ind' t')
  | TModel fs =>
      HModel fs
        ((fix go (fs : list field) : Forall (fun f : field => P (snd (fst f))) fs :=
            match fs with
            | [] => Forall_nil _
            | ((n, t'), d) :: rest => Forall_cons ((n, t'), d) (ty_ind' t') (go rest)
            end) fs)
  end.
End ty_induction.

Definition shape (r : res) : option (list error) :=
  match r with Ok _ => None | Err es => Some es end.

(** Validation only advances the generator: the random stream and the clock
    are the same afterwards, and the positions read so far only grow. *)
Definition gen_le (g h : gen) : Prop :=
  rng h = rng g /\ clock h = clock g /\ (rpos g <= rpos h)%nat /\ (tick g <= tick h)%nat.

(** Nothing was generated between [g] and [h]. *)
Definition unmoved (g h : gen) : Prop := rpos h = rpos g /\ tick h = tick g.

Section val_induction.
Variable P : val -> Prop.
Hypothesis HStr : forall s, P (VStr s).
Hypothesis HUuid : forall u, P (VUuid u).
Hypothesis HDate : forall d, P (VDate d).
Hypothesis HDateTime : forall x, P (VDateTime x).
Hypothesis HNone : P VNone.
Hypothesis HList : forall vs, Forall P vs -> P (VList vs).
Hypothesis HModel : forall kvs set, Forall (fun kv => P (snd kv)) kvs -> P (VModel kvs set).

Fixpoint val_ind' (v : val) : P v :=
  match v with
  | VStr s => HStr s | VUuid u => HUuid u | VDate d => HDate d
  | VDateTime x => HDateTime x | VNone => HNone
  | VList vs =>
      HList vs ((fix go (vs : list val) : Forall P vs :=
                   match vs with
                   | [] => Forall_nil _
                   | w :: rest => Forall_cons w (val_ind' w) (go rest)
                   end) vs)
  | VModel kvs set =>
      HModel kvs set
        ((fix go (kvs : list (string * val)) : Forall (fun kv => P (snd kv)) kvs :=
            match kvs with
            | [] => Forall_nil _
            | (k, w) :: rest => Forall_cons (k, w) (val_ind' w) (go rest)
            end) kvs)
  end.
End val_induction.

(** * Proofs *)

(** ** Digit strings *)

Lemma digits_length b n z : List.length (digits b n z) = n.
Proof.
  revert z; induction n as [|n IH]; intro z; simpl; [reflexivity|].
  rewrite length_app, IH; simpl; lia.
Qed.

Lemma digits_bound b n z :
  0 < b -> Forall (fun d => 0 <= d < b) (digits b n z).
Proof.
  intro Hb; revert z; induction n as [|n IH]; intro z; simpl; [constructor|].
  apply Forall_app; split; [apply IH|].
  constructor; [apply Z.mod_pos_bound; lia | constructor].
Qed.

Lemma from_digits_snoc b ds d : from_digits b (ds ++ [d]) = from_digits b ds * b + d.
Proof. unfold from_digits; rewrite fold_left_app; reflexivity. Qed.

Lemma from_digits_digits b n z :
  0 < b -> from_digits b (digits b n z) = z mod b ^ Z.of_nat n.
Proof.
  intro Hb; revert z; induction n as [|n IH]; intro z.
  - simpl; rewrite Z.mod_1_r; reflexivity.
  - cbn [digits]; rewrite from_digits_snoc, IH.
    rewrite Nat2Z.inj_succ, Z.pow_succ_r by lia.
    pose proof (Z.pow_pos_nonneg b (Z.of_nat n)).
    rewrite Z.rem_mul_r by lia; ring.
Qed.

Lemma from_digits_digits_small b n z :
  0 < b -> 0 <= z < b ^ Z.of_nat n -> from_digits b (digits b n z) = z.
Proof. intros Hb Hz; rewrite from_digits_digits by lia; apply Z.mod_small; lia. Qed.

Ltac enum_digit d :=
  match goal with
  | H : 0 <= d < ?k |- _ =>
      let k' := eval compute in (Z.to_nat k) in
      assert (Hd : In d (map Z.of_nat (seq 0 k'))) by
        (apply in_map_iff; exists (Z.to_nat d); split; [lia | apply in_seq; lia]);
      simpl in Hd; repeat (destruct Hd as [<- | Hd]; [reflexivity|]); destruct Hd
  end.

Lemma dec_val_char d : 0 <= d < 10 -> dec_val (dec_char d) = Some d.
Proof. intro H; enum_digit d. Qed.

Lemma hex_val_char d : 0 <= d < 16 -> hex_val (hex_char d) = Some d.
Proof. intro H; enum_digit d. Qed.

Lemma take_digits_map (val : ascii -> option Z) (ch : Z -> ascii) ds rest :
  Forall (fun d => val (ch d) = Some d) ds ->
  take_digits val (List.length ds) (map ch ds ++ rest) = Some (ds, rest).
Proof.
  induction 1 as [|d ds Hd _ IH]; simpl; [reflexivity|].
  rewrite Hd, IH; reflexivity.
Qed.

Lemma digits_dec_ok n z : Forall (fun d => dec_val (dec_char d) = Some d) (digits 10 n z).
Proof.
  eapply Forall_impl; [|apply digits_bound; lia].
  intros d Hd; apply dec_val_char; exact Hd.
Qed.

Lemma num_fmt n z rest :
  num n (fmt_num n z ++ rest) = Some (z mod 10 ^ Z.of_nat n, rest).
Proof.
  unfold num, fmt_num.
  pose proof (take_digits_map dec_val dec_char _ rest (digits_dec_ok n z)) as H.
  rewrite digits_length in H; rewrite H, from_digits_digits by lia; reflexivity.
Qed.

Lemma take_upto_fmt ds rest :
  Forall (fun d => dec_val (dec_char d) = Some d) ds ->
  take_upto (List.length ds) (map dec_char ds ++ rest) = (ds, rest).
Proof.
  induction 1 as [|d ds Hd _ IH]; simpl; [destruct rest; reflexivity|].
  rewrite Hd, IH; reflexivity.
Qed.

(** ** Round trips of the leaf codecs *)

Lemma uuid_layout (hs : list ascii) :
  List.length hs = 32%nat ->
  let cs := firstn 8 hs ++ "-"%char :: firstn 4 (skipn 8 hs) ++ "-"%char
            :: firstn 4 (skipn 12 hs) ++ "-"%char :: firstn 4 (skipn 16 hs)
            ++ "-"%char :: skipn 20 hs in
  List.length cs = 36%nat
  /\ List.nth 8 cs "a"%char = "-"%char /\ List.nth 13 cs "a"%char = "-"%char
  /\ List.nth 18 cs "a"%char = "-"%char /\ List.nth 23 cs "a"%char = "-"%char
  /\ firstn 8 cs ++ firstn 4 (skipn 9 cs) ++ firstn 4 (skipn 14 cs)
     ++ firstn 4 (skipn 19 cs) ++ skipn 24 cs = hs.
Proof.
  intro Hlen.
  do 32 (destruct hs as [|? hs]; [discriminate Hlen|]).
  destruct hs; [|discriminate Hlen].
  repeat split; reflexivity.
Qed.

Lemma parse_fmt_uuid u : uuid_ok u = true -> parse_uuid (fmt_uuid u) = Some u.
Proof.
  unfold uuid_ok; rewrite andb_true_iff, Z.leb_le, Z.ltb_lt; intros Hu.
  assert (Hlen : List.length (map hex_char (digits 16 32 u)) = 32%nat)
    by (rewrite length_map, digits_length; reflexivity).
  destruct (uuid_layout _ Hlen) as (L & H8 & H13 & H18 & H23 & Hcat).
  unfold parse_uuid, fmt_uuid.
  rewrite L, H8, H13, H18, H23, Hcat; simpl Nat.eqb; cbn [Ascii.eqb andb].
  unfold parse_hex_all.
  rewrite <- (app_nil_r (map hex_char (digits 16 32 u))).
  pose proof (digits_length 16 32 u) as Dl.
  rewrite <- Dl at 1.
  rewrite take_digits_map.
  - rewrite from_digits_digits_small; [reflexivity | lia | exact Hu].
  - eapply Forall_impl; [|apply digits_bound; lia].
    intros d Hd; apply hex_val_char; exact Hd.
Qed.

Lemma days_in_month_le y m : days_in_month y m <= 31.
Proof.
  unfold days_in_month.
  destruct (m =? 2); [destruct (is_leap y); lia|].
  destruct (_ || _); lia.
Qed.

Ltac unfold_oks :=
  repeat match goal with
  | H : (_ && _)%bool = true |- _ => apply andb_true_iff in H; destruct H
  | H : (_ <=? _) = true |- _ => apply Z.leb_le in H
  | H : (_ <? _) = true |- _ => apply Z.ltb_lt in H
  end.

Lemma parse_date_prefix_fmt d rest :
  date_ok d = true -> parse_date_prefix (fmt_date d ++ rest) = Some (d, rest).
Proof.
  destruct d as [y m dd]; unfold date_ok; cbn [year month day]; intro H; unfold_oks.
  pose proof (days_in_month_le y m).
  unfold parse_date_prefix, fmt_date; cbn [year month day].
  rewrite <- app_assoc, num_fmt; cbn -[num fmt_num].
  rewrite <- app_assoc, num_fmt; cbn -[num fmt_num].
  rewrite num_fmt.
  rewrite !Z.mod_small by (simpl; lia); reflexivity.
Qed.

Lemma parse_fmt_date d : date_ok d = true -> parse_date (fmt_date d) = Some d.
Proof.
  intro H; unfold parse_date.
  rewrite <- (app_nil_r (fmt_date d)), parse_date_prefix_fmt by exact H.
  rewrite H; reflexivity.
Qed.

Lemma parse_fmt_tz o : tz_ok o = true -> parse_tz (fmt_tz o) = Some o.
Proof.
  destruct o as [off|]; intro H; [|reflexivity].
  unfold tz_ok in H; unfold_oks; unfold fmt_tz.
  destruct (Z.eqb_spec off 0) as [->|Hne]; [reflexivity|].
  assert (Ha : 0 <= Z.abs off / 60 < 24)
    by (split; [apply Z.div_pos | apply Z.div_lt_upper_bound]; lia).
  assert (Hm : 0 <= Z.abs off mod 60 < 60) by (apply Z.mod_pos_bound; lia).
  pose proof (Z.div_mod (Z.abs off) 60 ltac:(lia)) as Hdm.
  rewrite <- (app_nil_r (fmt_num 2 (Z.abs off mod 60))).
  destruct (Z.ltb_spec off 0) as [Hneg|Hpos]; unfold parse_tz; cbn -[num fmt_num];
    rewrite num_fmt; cbn -[num fmt_num]; rewrite num_fmt;
    rewrite !Z.mod_small by (simpl; lia);
    replace (Z.abs off / 60 <? 24) with true by (symmetry; apply Z.ltb_lt; lia);
    replace (Z.abs off mod 60 <? 60) with true by (symmetry; apply Z.ltb_lt; lia);
    cbn; f_equal; f_equal; lia.
Qed.

Lemma parse_fraction_tz o : parse_fraction (fmt_tz o) = Some (0, fmt_tz o).
Proof.
  destruct o as [off|]; [|reflexivity]; unfold fmt_tz.
  destruct (off =? 0); [reflexivity|].
  destruct (off <? 0); reflexivity.
Qed.

Lemma parse_fraction_fmt us rest :
  0 <= us < 1000000 ->
  parse_fraction ("."%char :: fmt_num 6 us ++ rest) = Some (us, rest).
Proof.
  intro H; unfold parse_fraction; cbn [Ascii.eqb Bool.eqb].
  unfold fmt_num.
  pose proof (take_upto_fmt _ rest (digits_dec_ok 6 us)) as T.
  rewrite digits_length in T; rewrite T.
  destruct (digits 10 6 us) eqn:E; [discriminate (f_equal (@List.length Z) E)|].
  rewrite <- E, digits_length, from_digits_digits_small by (simpl; lia).
  simpl; rewrite Z.mul_1_r; reflexivity.
Qed.

Lemma parse_fmt_datetime t : dt_ok t = true -> parse_datetime (fmt_datetime t) = Some t.
Proof.
  intro Hok; pose proof Hok as Hok'.
  destruct t as [d h mi s us o]; unfold dt_ok in Hok;
    cbn [dt_date hour minute second micro tz] in Hok.
  fold (tz_ok o) in Hok; unfold_oks.
  unfold parse_datetime, fmt_datetime; cbn [dt_date hour minute second micro tz].
  rewrite parse_date_prefix_fmt by assumption.
  cbn -[num fmt_num parse_fraction parse_tz fmt_tz].
  rewrite num_fmt; cbn -[num fmt_num parse_fraction parse_tz fmt_tz].
  rewrite num_fmt; cbn -[num fmt_num parse_fraction parse_tz fmt_tz].
  rewrite num_fmt; cbn -[num fmt_num parse_fraction parse_tz fmt_tz].
  rewrite !(Z.mod_small _ (10 ^ Z.of_nat 2)) by (simpl; lia).
  destruct (Z.eqb_spec us 0) as [->|Hus].
  - rewrite app_nil_l, parse_fraction_tz, parse_fmt_tz by assumption.
    rewrite Hok'; reflexivity.
  - rewrite <- app_comm_cons, parse_fraction_fmt by lia.
    rewrite parse_fmt_tz by assumption; rewrite Hok'; reflexivity.
Qed.

(** ** Induction on field types *)

(** ** Errors do not depend on the generator state *)

Lemma validate_items_errors vt i js g1 g2 :
  (forall j g1 g2, shape (fst (vt j g1)) = shape (fst (vt j g2))) ->
  snd (fst (validate_items vt i js g1)) = snd (fst (validate_items vt i js g2)).
Proof.
  intro Hvt; revert i g1 g2; induction js as [|j js IH]; intros i g1 g2; [reflexivity|].
  cbn [validate_items]; unfold bind, ret; cbv beta.
  specialize (Hvt j g1 g2).
  destruct (vt j g1) as [r1 h1], (vt j g2) as [r2 h2]; cbn [fst] in Hvt.
  specialize (IH (S i) h1 h2).
  destruct (validate_items vt (S i) js h1) as [[vs1 es1] k1],
           (validate_items vt (S i) js h2) as [[vs2 es2] k2]; cbn in IH; subst.
  destruct r1, r2; cbn in Hvt |- *; try discriminate;
    try (injection Hvt as ->); reflexivity.
Qed.

Lemma validate_fields_errors kvs fs g1 g2 :
  Forall (fun f : field => forall j g1 g2,
            shape (fst (validate (snd (fst f)) j g1))
            = shape (fst (validate (snd (fst f)) j g2))) fs ->
  snd (fst (validate_fields validate kvs fs g1))
  = snd (fst (validate_fields validate kvs fs g2)).
Proof.
  intro HF; revert g1 g2; induction HF as [|[[n t] d] fs Hf _ IH]; intros g1 g2;
    [reflexivity|].
  cbn [validate_fields]; cbn [snd fst] in Hf.
  destruct (lookup n kvs) as [j|].
  - unfold bind, ret; cbv beta.
    specialize (Hf j g1 g2).
    destruct (validate t j g1) as [r1 h1], (validate t j g2) as [r2 h2];
      cbn [fst] in Hf.
    specialize (IH h1 h2).
    destruct (validate_fields validate kvs fs h1) as [[[o1 s1] e1] k1],
             (validate_fields validate kvs fs h2) as [[[o2 s2] e2] k2];
      cbn in IH |- *; subst.
    destruct r1, r2; cbn in Hf |- *; try discriminate;
      try (injection Hf as ->); reflexivity.
  - destruct d as [| |f]; unfold bind, ret; cbv beta.
    + specialize (IH g1 g2).
      destruct (validate_fields validate kvs fs g1) as [[[o1 s1] e1] k1],
               (validate_fields validate kvs fs g2) as [[[o2 s2] e2] k2];
        cbn in IH |- *; subst; reflexivity.
    + specialize (IH g1 g2).
      destruct (validate_fields validate kvs fs g1) as [[[o1 s1] e1] k1],
               (validate_fields validate kvs fs g2) as [[[o2 s2] e2] k2];
        cbn in IH |- *; subst; reflexivity.
    + destruct (run_factory f g1) as [v1 h1], (run_factory f g2) as [v2 h2].
      specialize (IH h1 h2).
      destruct (validate_fields validate kvs fs h1) as [[[o1 s1] e1] k1],
               (validate_fields validate kvs fs h2) as [[[o2 s2] e2] k2];
        cbn in IH |- *; subst; reflexivity.
Qed.

(** Whether validation succeeds, and the errors it reports, are a function
    of the type and the input alone. *)
Lemma validate_shape t : forall j g1 g2,
  shape (fst (validate t j g1)) = shape (fst (validate t j g2)).
Proof.
  induction t using ty_ind'; intros j g1 g2; try reflexivity.
  - cbn [validate]; destruct j; try reflexivity; apply IHt.
  - cbn [validate]; destruct j; try reflexivity; unfold bind, ret; cbv beta.
    pose proof (validate_items_errors (validate t) 0 l g1 g2 IHt) as E.
    destruct (validate_items (validate t) 0 l g1) as [[vs1 es1] h1],
             (validate_items (validate t) 0 l g2) as [[vs2 es2] h2];
      cbn in E |- *; subst; destruct es2; reflexivity.
  - cbn [validate]; destruct j; try reflexivity; unfold bind, ret; cbv beta.
    pose proof (validate_fields_errors kvs fs g1 g2 H) as E.
    destruct (validate_fields validate kvs fs g1) as [[[o1 s1] e1] h1],
             (validate_fields validate kvs fs g2) as [[[o2 s2] e2] h2];
      cbn in E |- *; subst; destruct e2; reflexivity.
Qed.

(** ** [uuid4] produces version-4 RFC 4122 UUIDs *)

Lemma high_bits_small a : 0 <= a -> (forall n, 128 <= n -> Z.testbit a n = false) ->
  a < 2 ^ 128.
Proof.
  intros Ha Hhi.
  assert (E : a = a mod 2 ^ 128).
  { apply Z.bits_inj'; intros n Hn.
    destruct (Z.lt_ge_cases n 128).
    - rewrite Z.mod_pow2_bits_low by lia; reflexivity.
    - rewrite Z.mod_pow2_bits_high, Hhi by lia; reflexivity. }
  rewrite E; apply Z.mod_pos_bound; lia.
Qed.

Lemma uuid4_of_ok r : uuid_v4_ok (uuid4_of r) = true.
Proof.
  unfold uuid_v4_ok, uuid_ok, uuid4_of; cbv zeta.
  assert (Hx : 0 <= r mod 2 ^ 128 < 2 ^ 128) by (apply Z.mod_pos_bound; lia).
  assert (Hxh : forall n, 128 <= n -> Z.testbit (r mod 2 ^ 128) n = false)
    by (intros; apply Z.mod_pow2_bits_high; lia).
  generalize dependent (r mod 2 ^ 128); intros x Hx Hxh.
  assert (Hnn : 0 <= Z.lor (Z.land (Z.lor (Z.land x (Z.lnot (Z.shiftl 49152 48)))
                   (Z.shiftl 32768 48)) (Z.lnot (Z.shiftl 61440 64))) (Z.shiftl 4 76)).
  { apply Z.lor_nonneg; split; [|discriminate].
    apply Z.land_nonneg; left; apply Z.lor_nonneg; split; [|discriminate].
    apply Z.land_nonneg; left; lia. }
  assert (Hlt : Z.lor (Z.land (Z.lor (Z.land x (Z.lnot (Z.shiftl 49152 48)))
                   (Z.shiftl 32768 48)) (Z.lnot (Z.shiftl 61440 64))) (Z.shiftl 4 76)
                < 2 ^ 128).
  { apply high_bits_small; [exact Hnn|]; intros n Hn.
    repeat (rewrite Z.lor_spec || rewrite Z.land_spec); rewrite Hxh by lia.
    rewrite !(Z.bits_above_log2 (Z.shiftl _ _)) by (simpl; lia).
    reflexivity. }
  apply andb_true_iff; split; [apply andb_true_iff; split|].
  - apply andb_true_iff; split; [apply Z.leb_le | apply Z.ltb_lt]; assumption.
  - apply Z.eqb_eq, Z.bits_inj'; intros n Hn.
    rewrite Z.land_spec.
    destruct (Z.lt_ge_cases n 4) as [Hs|Hb].
    + rewrite Z.shiftr_spec by lia.
      assert (n = 0 \/ n = 1 \/ n = 2 \/ n = 3) as [E|[E|[E|E]]] by lia; subst n;
        cbn [Z.add];
        repeat (rewrite Z.lor_spec || rewrite Z.land_spec || rewrite Z.lnot_spec by lia);
        destruct (Z.testbit x _); reflexivity.
    + rewrite (Z.bits_above_log2 15), (Z.bits_above_log2 4) by (simpl; lia).
      apply andb_false_r.
  - apply Z.eqb_eq, Z.bits_inj'; intros n Hn.
    rewrite Z.land_spec.
    destruct (Z.lt_ge_cases n 2) as [Hs|Hb].
    + rewrite Z.shiftr_spec by lia.
      assert (n = 0 \/ n = 1) as [E|E] by lia; subst n;
        cbn [Z.add];
        repeat (rewrite Z.lor_spec || rewrite Z.land_spec || rewrite Z.lnot_spec by lia);
        destruct (Z.testbit x _); reflexivity.
    + rewrite (Z.bits_above_log2 3), (Z.bits_above_log2 2) by (simpl; lia).
      apply andb_false_r.
Qed.

Lemma uuid4_of_uuid_ok r : uuid_ok (uuid4_of r) = true.
Proof.
  pose proof (uuid4_of_ok r) as H; unfold uuid_v4_ok in H.
  apply andb_true_iff in H as [H _]; apply andb_true_iff in H as [H _]; exact H.
Qed.

(** ** Serialising a well-formed value and validating it again *)

Lemma nodupb_NoDup l : nodupb l = true -> NoDup l.
Proof.
  induction l as [|x l IH]; cbn [nodupb]; intro H; [constructor|].
  apply andb_true_iff in H as [H1 H2]; apply negb_true_iff in H1.
  constructor; [|exact (IH H2)].
  intro Hin; assert (existsb (String.eqb x) l = true) as E
    by (apply existsb_exists; exists x; split; [exact Hin | apply String.eqb_refl]).
  congruence.
Qed.

Lemma wt_fields_names wt fs kvs : wt_fields wt fs kvs = true -> names fs = map fst kvs.
Proof.
  revert kvs; induction fs as [|[[n t] d] fs IH]; intros [|[k v] kvs]; cbn [wt_fields];
    try discriminate; [reflexivity|].
  intro H; apply andb_true_iff in H as [H H2]; apply andb_true_iff in H as [H1 _].
  apply String.eqb_eq in H1; subst k; cbn; f_equal; apply IH; exact H2.
Qed.

Lemma lookup_ser_in kvs k v :
  NoDup (map fst kvs) -> In (k, v) kvs ->
  lookup k (map (fun kv => (fst kv, ser (snd kv))) kvs) = Some (ser v).
Proof.
  induction kvs as [|[k' v'] kvs IH]; cbn [map lookup fst snd]; intros Hnd Hin;
    [destruct Hin|].
  inversion Hnd as [|? ? Hnotin Hnd']; subst.
  destruct Hin as [E|Hin].
  - injection E as -> ->; rewrite String.eqb_refl; reflexivity.
  - destruct (String.eqb_spec k k') as [->|Hne]; [|apply IH; assumption].
    exfalso; apply Hnotin; apply in_map_iff; exists (k', v); auto.
Qed.

Lemma validate_items_ser t i vs g :
  (forall v g, wtb t v = true -> validate t (ser v) g = (Ok (fill v), g)) ->
  forallb (wtb t) vs = true ->
  validate_items (validate t) i (map ser vs) g = ((map fill vs, []), g).
Proof.
  intros IH; revert i g; induction vs as [|v vs IHvs]; intros i g Hall; [reflexivity|].
  cbn [forallb] in Hall; apply andb_true_iff in Hall as [Hv Hvs].
  cbn [map validate_items]; unfold bind, ret; cbv beta.
  rewrite (IH v g Hv).
  rewrite IHvs by exact Hvs; reflexivity.
Qed.

Lemma validate_fields_ser full fs kvs g :
  Forall (fun f : field => forall v g, wtb (snd (fst f)) v = true ->
            validate (snd (fst f)) (ser v) g = (Ok (fill v), g)) fs ->
  wt_fields wtb fs kvs = true ->
  (forall k v, In (k, v) kvs -> lookup k full = Some (ser v)) ->
  validate_fields validate full fs g
  = ((map (fun kv => (fst kv, fill (snd kv))) kvs, map fst kvs, []), g).
Proof.
  intros HF; revert kvs g; induction HF as [|[[n t] d] fs Hf _ IH];
    intros kvs g Hwt Hlk.
  - destruct kvs; [reflexivity | discriminate].
  - destruct kvs as [|[k v] kvs]; [discriminate|].
    cbn [wt_fields] in Hwt; apply andb_true_iff in Hwt as [Hwt Hrest];
      apply andb_true_iff in Hwt as [Hk Hv]; apply String.eqb_eq in Hk; subst k.
    cbn [validate_fields]; rewrite (Hlk n v (or_introl eq_refl)).
    unfold bind, ret; cbv beta; cbn [fst snd] in Hf; rewrite (Hf v g Hv).
    rewrite (IH kvs); [reflexivity | exact Hrest |].
    intros k v' Hin; apply Hlk; right; exact Hin.
Qed.

(** [model_validate(model_dump(mode="json"))] rebuilds every well-formed
    value, with all its fields marked as set, and reads no generator. *)
Lemma validate_ser t : ty_ok t = true ->
  forall v g, wtb t v = true -> validate t (ser v) g = (Ok (fill v), g).
Proof.
  induction t using ty_ind'; intros Hok v g Hwt.
  - destruct v; try discriminate; reflexivity.
  - destruct v; try discriminate; cbn [wtb] in Hwt; apply negb_true_iff in Hwt.
    cbn -[String.eqb]; rewrite Hwt; reflexivity.
  - destruct v; try discriminate; cbn [wtb] in Hwt.
    cbn -[email_ok]; rewrite Hwt; reflexivity.
  - destruct v; try discriminate; cbn [wtb] in Hwt.
    cbn -[parse_uuid fmt_uuid].
    rewrite list_ascii_of_string_of_list_ascii, parse_fmt_uuid by exact Hwt; reflexivity.
  - destruct v; try discriminate; cbn [wtb] in Hwt.
    cbn -[parse_date fmt_date].
    rewrite list_ascii_of_string_of_list_ascii, parse_fmt_date by exact Hwt; reflexivity.
  - destruct v; try discriminate; cbn [wtb] in Hwt.
    cbn -[parse_datetime fmt_datetime].
    rewrite list_ascii_of_string_of_list_ascii, parse_fmt_datetime by exact Hwt;
      reflexivity.
  - cbn [ty_ok] in Hok.
    destruct v; cbn [wtb] in Hwt; try reflexivity; cbn [validate ser];
      exact (IHt Hok _ g Hwt).
  - cbn [ty_ok] in Hok.
    destruct v; try discriminate; cbn [wtb] in Hwt.
    cbn [validate ser]; unfold bind, ret; cbv beta.
    rewrite validate_items_ser; [reflexivity | exact (IHt Hok) | exact Hwt].
  - cbn [ty_ok] in Hok; apply andb_true_iff in Hok as [Hnd Hall].
    destruct v as [| | | | | |kvs set]; try discriminate; cbn [wtb] in Hwt.
    cbn [validate ser]; unfold bind, ret; cbv beta.
    rewrite (validate_fields_ser _ fs kvs); [reflexivity | | exact Hwt |].
    + rewrite Forall_forall in H |- *; intros [[n t] d] Hin.
      rewrite forallb_forall in Hall; specialize (Hall _ Hin); cbn in Hall.
      apply andb_true_iff in Hall as [_ Ht].
      exact (H _ Hin Ht).
    + intros k v' Hin; apply lookup_ser_in; [|exact Hin].
      rewrite <- (wt_fields_names _ _ _ Hwt); apply nodupb_NoDup; exact Hnd.
Qed.

(** ** Validated values are well-formed *)

Lemma hex_val_range c d : hex_val c = Some d -> 0 <= d < 16.
Proof.
  unfold hex_val; pose proof (Nat2Z.is_nonneg (nat_of_ascii c)).
  repeat match goal with |- context [if ?b then _ else _] =>
    let E := fresh in destruct b eqn:E end;
  intro Hv; try discriminate; injection Hv as <-; unfold_oks; lia.
Qed.

Lemma take_digits_spec val n cs ds rest :
  take_digits val n cs = Some (ds, rest) ->
  List.length ds = n /\ Forall (fun d => exists c, val c = Some d) ds.
Proof.
  revert cs ds; induction n as [|n IH]; intros cs ds H; cbn [take_digits] in H.
  - injection H as <- _; split; [reflexivity | constructor].
  - destruct cs as [|c cs]; [discriminate|].
    destruct (val c) as [d|] eqn:Ec; [|discriminate].
    destruct (take_digits val n cs) as [[ds' rest']|] eqn:Et; [|discriminate].
    injection H as <- ->.
    destruct (IH _ _ Et) as [L F]; split; [cbn; lia | constructor; eauto].
Qed.

Lemma from_digits_range b ds :
  0 < b -> Forall (fun d => 0 <= d < b) ds ->
  0 <= from_digits b ds < b ^ Z.of_nat (List.length ds).
Proof.
  intros Hb HF; unfold from_digits.
  assert (G : forall acc k, 0 <= k -> 0 <= acc < b ^ k ->
            0 <= fold_left (fun acc d => acc * b + d) ds acc
              < b ^ (k + Z.of_nat (List.length ds))).
  { induction HF as [|d ds Hd _ IH]; intros acc k Hk Hacc.
    - cbn; rewrite Z.add_0_r; exact Hacc.
    - cbn [fold_left List.length]; rewrite Nat2Z.inj_succ.
      replace (k + Z.succ (Z.of_nat (List.length ds)))
        with ((k + 1) + Z.of_nat (List.length ds)) by lia.
      apply IH; [lia|].
      rewrite Z.pow_add_r, Z.pow_1_r by lia; nia. }
  specialize (G 0 0 ltac:(lia) ltac:(cbn; lia)); exact G.
Qed.

Lemma parse_hex_all_ok cs u : parse_hex_all cs = Some u -> uuid_ok u = true.
Proof.
  unfold parse_hex_all.
  destruct (take_digits hex_val 32 cs) as [[ds [|? ?]]|] eqn:E; try discriminate.
  intro H; injection H as <-.
  destruct (take_digits_spec _ _ _ _ _ E) as [L F].
  assert (R : Forall (fun d => 0 <= d < 16) ds)
    by (eapply Forall_impl; [|exact F]; intros d [c Hc]; exact (hex_val_range c d Hc)).
  pose proof (from_digits_range 16 ds ltac:(lia) R) as B; rewrite L in B.
  unfold uuid_ok; apply andb_true_iff; split; [apply Z.leb_le | apply Z.ltb_lt];
    change (2 ^ 128) with (16 ^ Z.of_nat 32); lia.
Qed.

Lemma parse_uuid_ok cs u : parse_uuid cs = Some u -> uuid_ok u = true.
Proof.
  unfold parse_uuid; destruct (Nat.eqb _ _); [destruct (_ && _)%bool|];
    try discriminate; apply parse_hex_all_ok.
Qed.

Lemma parse_date_ok cs d : parse_date cs = Some d -> date_ok d = true.
Proof.
  unfold parse_date; destruct (parse_date_prefix cs) as [[d' [|? ?]]|]; try discriminate.
  destruct (date_ok d') eqn:E; [|discriminate]; intro H; injection H as <-; exact E.
Qed.

Lemma parse_datetime_ok cs t : parse_datetime cs = Some t -> dt_ok t = true.
Proof.
  unfold parse_datetime.
  repeat match goal with
  | |- (if ?x then _ else _) = Some _ -> _ => destruct x eqn:?
  | |- (match ?x with _ => _ end) = Some _ -> _ => destruct x
  end; try discriminate.
  intro H; injection H as <-; assumption.
Qed.

Lemma validate_err_nonempty t j g es : fst (validate t j g) = Err es -> es <> [].
Proof.
  revert j g; induction t using ty_ind'; intros j g;
    cbn [validate]; try (destruct j; cbn; intros E; try injection E as <-; try discriminate;
    repeat match goal with
           | E : (match ?x with _ => _ end) = _ |- _ => destruct x
           | E : (if ?x then _ else _) = _ |- _ => destruct x
           end; try injection E as <-; discriminate).
  - destruct j; try apply IHt; cbn; intros E; discriminate.
  - destruct j; unfold bind, ret; cbv beta; cbn; try (intro E; injection E as <-; discriminate).
    destruct (validate_items (validate t) 0 l g) as [[vs es'] h]; cbn.
    destruct es'; intro E; [discriminate | injection E as <-; discriminate].
  - destruct j; unfold bind, ret; cbv beta; cbn; try (intro E; injection E as <-; discriminate).
    destruct (validate_fields validate kvs fs g) as [[[o s] es'] h]; cbn.
    destruct es'; intro E; [discriminate | injection E as <-; discriminate].
Qed.

Lemma factory_wt t f g :
  default_ok t (DefFactory f) = true -> wtb t (fst (run_factory f g)) = true.
Proof.
  destruct f; cbn [default_ok]; intro H;
    destruct t as [| | | | | |t'| |]; try discriminate;
    try (destruct t'; try discriminate); cbn;
    first [ apply uuid4_of_uuid_ok | apply vdt_ok | reflexivity ].
Qed.

Lemma validate_items_wt t i js g vs es g' :
  (forall j g v g', validate t j g = (Ok v, g') -> wtb t v = true) ->
  validate_items (validate t) i js g = ((vs, es), g') -> forallb (wtb t) vs = true.
Proof.
  intros IH; revert i g vs es g'; induction js as [|j js IHjs]; intros i g vs es g' H.
  - injection H as <- _ _; reflexivity.
  - cbn [validate_items] in H; unfold bind, ret in H; cbv beta in H.
    destruct (validate t j g) as [r h] eqn:E1.
    destruct (validate_items (validate t) (S i) js h) as [[vs1 es1] h1] eqn:E2.
    destruct r; injection H as <- _ _; cbn [fst snd].
    + cbn [forallb]; rewrite (IH _ _ _ _ E1); exact (IHjs _ _ _ _ _ E2).
    + exact (IHjs _ _ _ _ _ E2).
Qed.

Lemma validate_fields_wt kvs fs g out set g' :
  Forall (fun f : field => default_ok (snd (fst f)) (snd f) = true
            /\ forall j g v g', validate (snd (fst f)) j g = (Ok v, g')
                               -> wtb (snd (fst f)) v = true) fs ->
  validate_fields validate kvs fs g = ((out, set, []), g') ->
  wt_fields wtb fs out = true.
Proof.
  intros HF; revert g out set g'; induction HF as [|[[n t] d] fs Hfd _ IH];
    intros g out set g' H.
  - injection H as <- _ _; reflexivity.
  - destruct Hfd as [Hd Hf]; cbn [fst snd] in Hd, Hf.
    cbn [validate_fields] in H.
    destruct (lookup n kvs) as [j|].
    + unfold bind, ret in H; cbv beta in H.
      destruct (validate t j g) as [r h] eqn:E1.
      destruct (validate_fields validate kvs fs h) as [[[o1 s1] e1] h1] eqn:E2.
      destruct r as [v|e]; injection H as Ho _ He _.
      * subst out e1; cbn [wt_fields]; rewrite String.eqb_refl, (Hf _ _ _ _ E1).
        exact (IH _ _ _ _ E2).
      * exfalso; apply app_eq_nil in He as [He _].
        apply (validate_err_nonempty t j g e); [rewrite E1; reflexivity|].
        destruct e; [reflexivity | discriminate].
    + destruct d as [| |f]; unfold bind, ret in H; cbv beta in H.
      * destruct (validate_fields validate kvs fs g) as [[[o1 s1] e1] h1];
          injection H as _ _ He _; discriminate.
      * destruct (validate_fields validate kvs fs g) as [[[o1 s1] e1] h1] eqn:E2.
        injection H as <- _ -> _; cbn [wt_fields]; rewrite String.eqb_refl.
        destruct t; try discriminate; cbn [wtb andb]; exact (IH _ _ _ _ E2).
      * pose proof (factory_wt t f g Hd) as Hv.
        destruct (run_factory f g) as [v h]; cbn [fst] in Hv.
        destruct (validate_fields validate kvs fs h) as [[[o1 s1] e1] h1] eqn:E2.
        injection H as <- _ -> _; cbn [wt_fields]; rewrite String.eqb_refl, Hv.
        exact (IH _ _ _ _ E2).
Qed.

Ltac leaf_case H j :=
  unfold ret, validate_str, err1 in H; destruct j;
  cbn -[email_ok parse_uuid parse_date parse_datetime String.eqb] in H;
  try discriminate.

(** Whatever validation builds is a well-formed value of the type. *)
Lemma validate_wt t : ty_ok t = true ->
  forall j g v g', validate t j g = (Ok v, g') -> wtb t v = true.
Proof.
  induction t as [| | | | | |t IHt|t IHt|fs IHfs] using ty_ind'; intros Hok j g v g' H; cbn [validate] in H.
  - leaf_case H j; injection H as <- _; reflexivity.
  - leaf_case H j; destruct (String.eqb s "") eqn:E; [discriminate H|].
    injection H as <- _; cbn; rewrite E; reflexivity.
  - leaf_case H j; destruct (email_ok s) eqn:E; [|discriminate H].
    injection H as <- _; exact E.
  - leaf_case H j; destruct (parse_uuid _) eqn:E; [|discriminate H].
    injection H as <- _; exact (parse_uuid_ok _ _ E).
  - leaf_case H j; destruct (parse_date _) eqn:E; [|discriminate H].
    injection H as <- _; exact (parse_date_ok _ _ E).
  - leaf_case H j; destruct (parse_datetime _) eqn:E; [|discriminate H].
    injection H as <- _; exact (parse_datetime_ok _ _ E).
  - cbn [ty_ok] in Hok.
    destruct j; try (injection H as <- _; reflexivity);
      pose proof (IHt Hok _ _ _ _ H) as W; destruct v; first [reflexivity | exact W].
  - cbn [ty_ok] in Hok.
    destruct j; unfold bind, ret in H; cbv beta in H; try (injection H as Hv _; discriminate).
    destruct (validate_items (validate t) 0 l g) as [[vs es] h] eqn:E.
    cbn in H; destruct es; [|discriminate H].
    injection H as <- _; cbn [wtb].
    exact (validate_items_wt _ _ _ _ _ _ _ (IHt Hok) E).
  - cbn [ty_ok] in Hok; apply andb_true_iff in Hok as [_ Hall].
    destruct j; unfold bind, ret in H; cbv beta in H; try (injection H as Hv _; discriminate).
    destruct (validate_fields validate kvs fs g) as [[[o s] es] h] eqn:E.
    destruct es; [|discriminate H].
    injection H as <- _; cbn [wtb].
    apply (validate_fields_wt _ _ _ _ _ _ ) with (2 := E).
    rewrite Forall_forall in IHfs |- *; intros [[n t] d] Hin.
    rewrite forallb_forall in Hall; specialize (Hall _ Hin); cbn in Hall |- *.
    apply andb_true_iff in Hall as [Hd Ht]; split; [exact Hd | exact (IHfs _ Hin Ht)].
Qed.

(** ** Missing required fields, nested errors, ignored keys *)

Ltac split_fields_step :=
  unfold bind, ret; cbv beta;
  repeat match goal with
  | |- context [let '(_, _) := ?x in _] => destruct x
  end.

(** The errors of the fields loop contain those of every later step. *)
Lemma validate_fields_missing vt kvs fs n t g :
  In ((n, t), Required) fs -> lookup n kvs = None ->
  In (mkerr [LKey n] "missing") (snd (fst (validate_fields vt kvs fs g))).
Proof.
  revert g; induction fs as [|[[m t'] d] fs IH]; intros g Hin Hl; [destruct Hin|].
  cbn [validate_fields].
  destruct (String.eqb_spec n m) as [->|Hne].
  - rewrite Hl.
    destruct Hin as [E|Hin].
    + injection E; intros; subst; split_fields_step; cbn; left; reflexivity.
    + destruct d as [| |f]; unfold bind, ret; cbv beta.
      * specialize (IH g Hin Hl).
        destruct (validate_fields vt kvs fs g) as [[[? ?] ?] ?]; cbn; right; exact IH.
      * specialize (IH g Hin Hl).
        destruct (validate_fields vt kvs fs g) as [[[? ?] ?] ?]; exact IH.
      * destruct (run_factory f g) as [v h]; specialize (IH h Hin Hl).
        destruct (validate_fields vt kvs fs h) as [[[? ?] ?] ?]; exact IH.
  - destruct Hin as [E|Hin]; [injection E as E; congruence|].
    destruct (lookup m kvs) as [j|].
    + unfold bind, ret; cbv beta.
      destruct (vt t' j g) as [r h]; specialize (IH h Hin Hl).
      destruct (validate_fields vt kvs fs h) as [[[o s] es] h'].
      destruct r; cbn in IH |- *; [exact IH | apply in_or_app; right; exact IH].
    + destruct d as [| |f]; unfold bind, ret; cbv beta.
      * specialize (IH g Hin Hl).
        destruct (validate_fields vt kvs fs g) as [[[? ?] ?] ?]; cbn; right; exact IH.
      * specialize (IH g Hin Hl).
        destruct (validate_fields vt kvs fs g) as [[[? ?] ?] ?]; exact IH.
      * destruct (run_factory f g) as [v h]; specialize (IH h Hin Hl).
        destruct (validate_fields vt kvs fs h) as [[[? ?] ?] ?]; exact IH.
Qed.

Lemma validate_model_errors fs kvs g e :
  In e (snd (fst (validate_fields validate kvs fs g))) ->
  exists es, fst (validate (TModel fs) (JObj kvs) g) = Err es /\ In e es.
Proof.
  intro Hin; cbn [validate]; unfold bind, ret; cbv beta.
  destruct (validate_fields validate kvs fs g) as [[[o s] es] h]; cbn in Hin |- *.
  destruct es as [|e' es]; [destruct Hin|]; eexists; split; [reflexivity | exact Hin].
Qed.

(** A required field absent from the input makes model validation fail with
    a [missing] error located at that field. *)
Lemma validate_model_missing fs kvs n t g :
  In ((n, t), Required) fs -> lookup n kvs = None ->
  exists es, fst (validate (TModel fs) (JObj kvs) g) = Err es
             /\ In (mkerr [LKey n] "missing") es.
Proof.
  intros Hin Hl; apply validate_model_errors; apply (validate_fields_missing validate kvs fs n t g Hin Hl).
Qed.

Lemma validate_fields_nested vt kvs fs n t d j e g :
  In ((n, t), d) fs -> lookup n kvs = Some j ->
  (forall g, exists es, fst (vt t j g) = Err es /\ In e es) ->
  In (mkerr (LKey n :: loc e) (kind e)) (snd (fst (validate_fields vt kvs fs g))).
Proof.
  intros Hin Hl He; revert g; induction fs as [|[[m t'] d'] fs IH]; intro g;
    [destruct Hin|].
  cbn [validate_fields].
  assert (Hhead : ((m, t'), d') = ((n, t), d) \/ In ((n, t), d) fs) by exact Hin.
  destruct (lookup m kvs) as [j'|] eqn:Hm.
  - unfold bind, ret; cbv beta.
    destruct Hhead as [E|Hin'].
    + injection E as -> -> ->; rewrite Hl in Hm; injection Hm as <-.
      destruct (He g) as [es [Hes Hein]].
      destruct (vt t j g) as [r h]; cbn in Hes; subst r.
      destruct (validate_fields vt kvs fs h) as [[[o s] es'] h']; cbn.
      apply in_or_app; left; apply in_map_iff; exists e; split; [reflexivity | exact Hein].
    + destruct (vt t' j' g) as [r h]; specialize (IH Hin' h).
      destruct (validate_fields vt kvs fs h) as [[[o s] es] h'].
      destruct r; cbn in IH |- *; [exact IH | apply in_or_app; right; exact IH].
  - destruct Hhead as [E|Hin'].
    + injection E as -> -> ->; congruence.
    + destruct d' as [| |f]; unfold bind, ret; cbv beta.
      * specialize (IH Hin' g).
        destruct (validate_fields vt kvs fs g) as [[[? ?] ?] ?]; cbn; right; exact IH.
      * specialize (IH Hin' g).
        destruct (validate_fields vt kvs fs g) as [[[? ?] ?] ?]; exact IH.
      * destruct (run_factory f g) as [v h]; specialize (IH Hin' h).
        destruct (validate_fields vt kvs fs h) as [[[? ?] ?] ?]; exact IH.
Qed.

(** An invalid nested value makes model validation fail with the nested
    error, its location prefixed by the field name. *)
Lemma validate_model_nested fs kvs n t d j e g :
  In ((n, t), d) fs -> lookup n kvs = Some j ->
  (forall g, exists es, fst (validate t j g) = Err es /\ In e es) ->
  exists es, fst (validate (TModel fs) (JObj kvs) g) = Err es
             /\ In (mkerr (LKey n :: loc e) (kind e)) es.
Proof.
  intros Hin Hl He; apply validate_model_errors.
  apply (validate_fields_nested validate kvs fs n t d j e g Hin Hl He).
Qed.

(** Keys of the input that are not fields of the model play no part. *)
Lemma validate_fields_extra vt kvs fs k j :
  ~ In k (names fs) ->
  validate_fields vt ((k, j) :: kvs) fs = validate_fields vt kvs fs.
Proof.
  induction fs as [|[[n t] d] fs IH]; intro Hk; [reflexivity|].
  cbn [names map fname fst] in Hk.
  assert (Hne : n <> k) by (intro; apply Hk; left; assumption).
  assert (Hk' : ~ In k (names fs)) by (intro; apply Hk; right; assumption).
  cbn [validate_fields lookup]; rewrite (proj2 (String.eqb_neq n k) Hne), (IH Hk').
  reflexivity.
Qed.

(** ** How validation uses the generator *)

Lemma gen_le_refl g : gen_le g g.
Proof. repeat split; lia. Qed.

Lemma gen_le_trans g h k : gen_le g h -> gen_le h k -> gen_le g k.
Proof. unfold gen_le; intros (?&?&?&?) (?&?&?&?); repeat split; [congruence | congruence | lia | lia]. Qed.

Lemma unmoved_squeeze g h k :
  gen_le g h -> gen_le h k -> unmoved g k -> unmoved g h /\ unmoved h k.
Proof. unfold gen_le, unmoved; intros (?&?&?&?) (?&?&?&?) (?&?); lia. Qed.

Lemma run_factory_gen_le f g : gen_le g (snd (run_factory f g)).
Proof. destruct f; cbn; unfold gen_le; cbn; repeat split; try reflexivity; lia. Qed.

Lemma validate_items_gen_le vt i js g :
  (forall j g, gen_le g (snd (vt j g))) -> gen_le g (snd (validate_items vt i js g)).
Proof.
  intro Hvt; revert i g; induction js as [|j js IH]; intros i g; [apply gen_le_refl|].
  cbn [validate_items]; unfold bind, ret; cbv beta.
  pose proof (Hvt j g) as H1; destruct (vt j g) as [r h]; cbn [snd] in H1.
  pose proof (IH (S i) h) as H2; destruct (validate_items vt (S i) js h) as [p k].
  exact (gen_le_trans _ _ _ H1 H2).
Qed.

Lemma validate_fields_gen_le kvs fs g :
  Forall (fun f : field => forall j g, gen_le g (snd (validate (snd (fst f)) j g))) fs ->
  gen_le g (snd (validate_fields validate kvs fs g)).
Proof.
  intro HF; revert g; induction HF as [|[[n t] d] fs Hf _ IH]; intro g;
    [apply gen_le_refl|].
  cbn [validate_fields]; cbn [snd fst] in Hf.
  destruct (lookup n kvs) as [j|].
  - unfold bind, ret; cbv beta.
    pose proof (Hf j g) as H1; destruct (validate t j g) as [r h]; cbn [snd] in H1.
    pose proof (IH h) as H2; destruct (validate_fields validate kvs fs h) as [[[o s] es] k].
    exact (gen_le_trans _ _ _ H1 H2).
  - destruct d as [| |f]; unfold bind, ret; cbv beta.
    + pose proof (IH g) as H2; destruct (validate_fields validate kvs fs g) as [[[o s] es] k].
      exact H2.
    + pose proof (IH g) as H2; destruct (validate_fields validate kvs fs g) as [[[o s] es] k].
      exact H2.
    + pose proof (run_factory_gen_le f g) as H1.
      destruct (run_factory f g) as [v h]; cbn [snd] in H1.
      pose proof (IH h) as H2; destruct (validate_fields validate kvs fs h) as [[[o s] es] k].
      exact (gen_le_trans _ _ _ H1 H2).
Qed.

Lemma validate_gen_le t : forall j g, gen_le g (snd (validate t j g)).
Proof.
  induction t using ty_ind'; intros j g; try (cbn; apply gen_le_refl).
  - cbn [validate]; destruct j; try apply IHt; apply gen_le_refl.
  - cbn [validate]; destruct j; try apply gen_le_refl; unfold bind, ret; cbv beta.
    pose proof (validate_items_gen_le (validate t) 0 l g IHt) as H1.
    destruct (validate_items (validate t) 0 l g) as [p h]; exact H1.
  - cbn [validate]; destruct j; try apply gen_le_refl; unfold bind, ret; cbv beta.
    pose proof (validate_fields_gen_le kvs fs g H) as H1.
    destruct (validate_fields validate kvs fs g) as [[[o s] es] h]; exact H1.
Qed.

Lemma validate_items_pure vt i js g1 g2 :
  (forall j g, gen_le g (snd (vt j g))) ->
  (forall j g1 g2, unmoved g1 (snd (vt j g1)) -> vt j g2 = (fst (vt j g1), g2)) ->
  unmoved g1 (snd (validate_items vt i js g1)) ->
  validate_items vt i js g2 = (fst (validate_items vt i js g1), g2).
Proof.
  intros Hle Hvt; revert i g1 g2; induction js as [|j js IH]; intros i g1 g2 Hu;
    [reflexivity|].
  revert Hu; cbn [validate_items]; unfold bind, ret; cbv beta.
  pose proof (Hle j g1) as L1; pose proof (Hvt j g1 g2) as P1.
  destruct (vt j g1) as [r h]; cbn [snd fst] in L1, P1.
  pose proof (validate_items_gen_le vt (S i) js h Hle) as L2.
  pose proof (IH (S i) h g2) as P2.
  destruct (validate_items vt (S i) js h) as [p k]; cbn [snd fst] in L2, P2 |- *.
  intro Hu; destruct (unmoved_squeeze _ _ _ L1 L2 Hu) as [U1 U2].
  rewrite (P1 U1), (P2 U2); reflexivity.
Qed.

Lemma validate_fields_pure kvs fs g1 g2 :
  Forall (fun f : field => forall j g1 g2,
            unmoved g1 (snd (validate (snd (fst f)) j g1)) ->
            validate (snd (fst f)) j g2 = (fst (validate (snd (fst f)) j g1), g2)) fs ->
  unmoved g1 (snd (validate_fields validate kvs fs g1)) ->
  validate_fields validate kvs fs g2 = (fst (validate_fields validate kvs fs g1), g2).
Proof.
  intro HF; revert g1 g2; induction HF as [|[[n t] d] fs Hf _ IH]; intros g1 g2 Hu;
    [reflexivity|].
  revert Hu; cbn [validate_fields]; cbn [snd fst] in Hf.
  assert (Lf : forall h, gen_le h (snd (validate_fields validate kvs fs h))).
  { intro h; apply validate_fields_gen_le.
    apply Forall_forall; intros x _ j g; apply validate_gen_le. }
  destruct (lookup n kvs) as [j|].
  - unfold bind, ret; cbv beta.
    pose proof (validate_gen_le t j g1) as L1; pose proof (Hf j g1 g2) as P1.
    destruct (validate t j g1) as [r h]; cbn [snd fst] in L1, P1.
    pose proof (Lf h) as L2; pose proof (IH h g2) as P2.
    destruct (validate_fields validate kvs fs h) as [[[o s] es] k];
      cbn [snd fst] in L2, P2 |- *.
    intro Hu; destruct (unmoved_squeeze _ _ _ L1 L2 Hu) as [U1 U2].
    rewrite (P1 U1), (P2 U2); reflexivity.
  - destruct d as [| |f]; unfold bind, ret; cbv beta.
    + pose proof (IH g1 g2) as P2.
      destruct (validate_fields validate kvs fs g1) as [[[o s] es] k]; cbn [snd fst] in P2 |- *.
      intro Hu; rewrite (P2 Hu); reflexivity.
    + pose proof (IH g1 g2) as P2.
      destruct (validate_fields validate kvs fs g1) as [[[o s] es] k]; cbn [snd fst] in P2 |- *.
      intro Hu; rewrite (P2 Hu); reflexivity.
    + pose proof (Lf (snd (run_factory f g1))) as L2.
      destruct f; cbn [run_factory]; unfold bind, ret; cbv beta; cbn [uuid4 utcnow].
      * destruct (validate_fields validate kvs fs _) as [[[o s] es] k]; cbn [snd] in L2 |- *.
        intro Hu; destruct L2 as (_&_&L2&_), Hu as [Hu _]; cbn in L2; lia.
      * destruct (validate_fields validate kvs fs _) as [[[o s] es] k]; cbn [snd] in L2 |- *.
        intro Hu; destruct L2 as (_&_&_&L2), Hu as [_ Hu]; cbn in L2; lia.
      * pose proof (IH g1 g2) as P2.
        destruct (validate_fields validate kvs fs g1) as [[[o s] es] k];
          cbn [snd fst] in P2 |- *.
        intro Hu; rewrite (P2 Hu); reflexivity.
Qed.

(** A validation that generated nothing gives the same result from every
    generator state, and leaves that state as it was. *)
Lemma validate_pure t : forall j g1 g2,
  unmoved g1 (snd (validate t j g1)) -> validate t j g2 = (fst (validate t j g1), g2).
Proof.
  induction t using ty_ind'; intros j g1 g2 Hu; try reflexivity.
  - revert Hu; cbn [validate]; destruct j; try (intros; reflexivity); apply IHt.
  - revert Hu; cbn [validate]; destruct j; try (intros; reflexivity);
      unfold bind, ret; cbv beta.
    pose proof (validate_items_pure (validate t) 0 l g1 g2 (validate_gen_le t) IHt) as P.
    destruct (validate_items (validate t) 0 l g1) as [p h]; cbn [snd fst] in P |- *.
    intro Hu; rewrite (P Hu); reflexivity.
  - revert Hu; cbn [validate]; destruct j; try (intros; reflexivity);
      unfold bind, ret; cbv beta.
    pose proof (validate_fields_pure kvs fs g1 g2 H) as P.
    destruct (validate_fields validate kvs fs g1) as [[[o s] es] h];
      cbn [snd fst] in P |- *.
    intro Hu; rewrite (P Hu); reflexivity.
Qed.

(** ** Fields sets, defaults and explicit nulls *)

Lemma in_names fs n t d : In ((n, t), d) fs -> In n (names fs).
Proof. intro H; apply (in_map fname) in H; exact H. Qed.

(** Only keys present in the input enter the fields set. *)
Lemma validate_fields_set_present vt kvs fs g m :
  In m (snd (fst (fst (validate_fields vt kvs fs g)))) -> lookup m kvs <> None.
Proof.
  revert g; induction fs as [|[[n t] d] fs IH]; intro g; [intros []|].
  cbn [validate_fields].
  destruct (lookup n kvs) as [j|] eqn:Hn.
  - unfold bind, ret; cbv beta.
    destruct (vt t j g) as [r h]; specialize (IH h).
    destruct (validate_fields vt kvs fs h) as [[[o s] es] k]; cbn in IH |- *.
    destruct r; cbn; [|exact IH].
    intros [<-|Hm]; [congruence | exact (IH Hm)].
  - destruct d as [| |f]; unfold bind, ret; cbv beta.
    + specialize (IH g); destruct (validate_fields vt kvs fs g) as [[[o s] es] k]; exact IH.
    + specialize (IH g); destruct (validate_fields vt kvs fs g) as [[[o s] es] k]; exact IH.
    + destruct (run_factory f g) as [v h]; specialize (IH h).
      destruct (validate_fields vt kvs fs h) as [[[o s] es] k]; exact IH.
Qed.

(** An explicit [null] for an optional field defaulting to [None] gives the
    same field values, errors and generator state as omitting the field;
    the two differ in the fields set only. *)
Lemma validate_fields_null kvs fs n t g o1 s1 e1 g1 o2 s2 e2 g2 :
  NoDup (names fs) -> In ((n, TOpt t), DefNone) fs -> lookup n kvs = None ->
  validate_fields validate ((n, JNull) :: kvs) fs g = ((o1, s1, e1), g1) ->
  validate_fields validate kvs fs g = ((o2, s2, e2), g2) ->
  o1 = o2 /\ e1 = e2 /\ g1 = g2 /\ lookup n o1 = Some VNone /\ In n s1 /\ ~ In n s2.
Proof.
  intros Hnd Hin Hl.
  assert (Hs2 : validate_fields validate kvs fs g = ((o2, s2, e2), g2) -> ~ In n s2).
  { intros E Hs; apply (validate_fields_set_present validate kvs fs g n); [|exact Hl].
    rewrite E; exact Hs. }
  intros E1 E2; pose proof (Hs2 E2) as Hn2; clear Hs2; revert E1 E2.
  revert g o1 s1 e1 g1 o2 s2 e2 g2 Hn2.
  induction fs as [|[[m t'] d] fs IH]; intros g o1 s1 e1 g1 o2 s2 e2 g2 Hn2;
    [destruct Hin|].
  cbn [names map fname fst] in Hnd; inversion Hnd as [|? ? Hm Hnd']; subst.
  cbn [validate_fields lookup].
  destruct (String.eqb_spec m n) as [->|Hne].
  - destruct Hin as [E|Hin]; [|exfalso; apply Hm; exact (in_names _ _ _ _ Hin)].
    injection E as Et Ed; subst t' d.
    rewrite Hl, (validate_fields_extra validate kvs fs n JNull Hm).
    cbn [validate]; unfold bind, ret; cbv beta.
    destruct (validate_fields validate kvs fs g) as [[[o s] es] k].
    intros E1 E2; injection E1 as <- <- <- <-; injection E2 as <- <- <- <-.
    cbn [lookup]; rewrite String.eqb_refl.
    repeat split; [left; reflexivity | exact Hn2].
  - destruct Hin as [E|Hin]; [injection E as E; congruence|].
    destruct (lookup m kvs) as [j|].
    + unfold bind, ret; cbv beta.
      destruct (validate t' j g) as [r h].
      destruct (validate_fields validate ((n, JNull) :: kvs) fs h) as [[[oa sa] ea] ka] eqn:Ea,
               (validate_fields validate kvs fs h) as [[[ob sb] eb] kb] eqn:Eb.
      intros E1 E2.
      destruct r; injection E1 as <- <- <- <-; injection E2 as <- <- <- <-.
      * assert (Hnb : ~ In n sb) by (intro; apply Hn2; right; assumption).
        destruct (IH Hnd' Hin h oa sa ea ka ob sb eb kb Hnb Ea Eb)
          as (-> & -> & -> & Hlk & Hsa & _).
        cbn [lookup]; rewrite (proj2 (String.eqb_neq n m) (not_eq_sym Hne)).
        repeat split; [exact Hlk | right; exact Hsa | exact Hn2].
      * destruct (IH Hnd' Hin h oa sa ea ka ob sb eb kb Hn2 Ea Eb)
          as (-> & -> & -> & Hlk & Hsa & _).
        repeat split; assumption.
    + destruct d as [| |f]; unfold bind, ret; cbv beta;
        [| |destruct (run_factory f g) as [v h0]];
        [set (h := g) | set (h := g) | set (h := h0)];
        destruct (validate_fields validate ((n, JNull) :: kvs) fs h) as [[[oa sa] ea] ka] eqn:Ea,
                 (validate_fields validate kvs fs h) as [[[ob sb] eb] kb] eqn:Eb;
        intros E1 E2; injection E1 as <- <- <- <-; injection E2 as <- <- <- <-;
        destruct (IH Hnd' Hin h oa sa ea ka ob sb eb kb Hn2 Ea Eb)
          as (-> & -> & -> & Hlk & Hsa & _);
        cbn [lookup]; try rewrite (proj2 (String.eqb_neq n m) (not_eq_sym Hne));
        repeat split; assumption.
Qed.

(** An absent field with a default factory takes the factory's value at
    some generator state reached from the initial one. *)
Lemma validate_fields_factory kvs fs n t f g :
  NoDup (names fs) -> In ((n, t), DefFactory f) fs -> lookup n kvs = None ->
  exists h, gen_le g h /\
    lookup n (fst (fst (fst (validate_fields validate kvs fs g))))
    = Some (fst (run_factory f h)).
Proof.
  intros Hnd Hin Hl; revert g; induction fs as [|[[m t'] d] fs IH]; intro g;
    [destruct Hin|].
  cbn [names map fname fst] in Hnd; inversion Hnd as [|? ? Hm Hnd']; subst.
  cbn [validate_fields].
  destruct (String.eqb_spec m n) as [->|Hne].
  - destruct Hin as [E|Hin]; [|exfalso; apply Hm; exact (in_names _ _ _ _ Hin)].
    injection E as Et Ed; subst t' d; rewrite Hl.
    exists g; split; [apply gen_le_refl|].
    unfold bind, ret; cbv beta.
    destruct (run_factory f g) as [v h].
    destruct (validate_fields validate kvs fs h) as [[[o s] es] k]; cbn.
    rewrite String.eqb_refl; reflexivity.
  - destruct Hin as [E|Hin]; [injection E as E; congruence|].
    assert (Hnm : String.eqb n m = false) by (apply String.eqb_neq; congruence).
    destruct (lookup m kvs) as [j|].
    + unfold bind, ret; cbv beta.
      pose proof (validate_gen_le t' j g) as L1.
      destruct (validate t' j g) as [r h]; cbn [snd] in L1.
      destruct (IH Hnd' Hin h) as [h' [L2 E]].
      exists h'; split; [exact (gen_le_trans _ _ _ L1 L2)|].
      destruct (validate_fields validate kvs fs h) as [[[o s] es] k].
      destruct r; cbn in E |- *; [rewrite Hnm|]; exact E.
    + destruct d as [| |f']; unfold bind, ret; cbv beta.
      * destruct (IH Hnd' Hin g) as [h' [L2 E]]; exists h'; split; [exact L2|].
        destruct (validate_fields validate kvs fs g) as [[[o s] es] k]; exact E.
      * destruct (IH Hnd' Hin g) as [h' [L2 E]]; exists h'; split; [exact L2|].
        destruct (validate_fields validate kvs fs g) as [[[o s] es] k]; cbn in E |- *.
        rewrite Hnm; exact E.
      * pose proof (run_factory_gen_le f' g) as L1.
        destruct (run_factory f' g) as [v h]; cbn [snd] in L1.
        destruct (IH Hnd' Hin h) as [h' [L2 E]].
        exists h'; split; [exact (gen_le_trans _ _ _ L1 L2)|].
        destruct (validate_fields validate kvs fs h) as [[[o s] es] k]; cbn in E |- *.
        rewrite Hnm; exact E.
Qed.

Lemma validate_model_fields fs kvs g v g' :
  validate (TModel fs) (JObj kvs) g = (Ok v, g') ->
  v = VModel (fst (fst (fst (validate_fields validate kvs fs g))))
             (snd (fst (fst (validate_fields validate kvs fs g)))).
Proof.
  cbn [validate]; unfold bind, ret; cbv beta.
  destruct (validate_fields validate kvs fs g) as [[[o s] es] h].
  destruct es; [|discriminate]; intro E; injection E as <- _; reflexivity.
Qed.

(** The field values of a well-formed model value are found under the
    field names, each of the field's type. *)
Lemma wt_fields_lookup wt fs kvs n t d :
  wt_fields wt fs kvs = true -> NoDup (names fs) -> In ((n, t), d) fs ->
  exists v, lookup n kvs = Some v /\ wt t v = true.
Proof.
  revert kvs; induction fs as [|[[m t'] d'] fs IH]; intros kvs Hw Hnd Hin;
    [destruct Hin|].
  destruct kvs as [|[k v] kvs]; [discriminate|].
  cbn [wt_fields] in Hw; apply andb_true_iff in Hw as [Hw H3];
    apply andb_true_iff in Hw as [H1 H2]; apply String.eqb_eq in H1; subst k.
  cbn [names map fname fst] in Hnd; inversion Hnd as [|? ? Hm Hnd']; subst.
  cbn [lookup].
  destruct (String.eqb_spec n m) as [->|Hne].
  - destruct Hin as [E|Hin]; [|exfalso; apply Hm; exact (in_names _ _ _ _ Hin)].
    injection E as -> _; exists v; split; [reflexivity | exact H2].
  - destruct Hin as [E|Hin]; [injection E as E; congruence|].
    exact (IH kvs H3 Hnd' Hin).
Qed.

(** Re-validation changes the fields sets only. *)
Lemma erase_fill v : erase (fill v) = erase v.
Proof.
  induction v using val_ind'; try reflexivity.
  - cbn [fill erase]; rewrite map_map; f_equal.
    apply map_ext_Forall; exact H.
  - cbn [fill erase]; rewrite map_map; f_equal.
    apply map_ext_Forall; eapply Forall_impl; [|exact H].
    intros [k w] Hw; cbn in Hw |- *; rewrite Hw; reflexivity.
Qed.

(** ** The schemas of the application *)

Lemma schemas_ok :
  ty_ok PersonBase = true /\ ty_ok CourseworkBase = true /\ ty_ok CourseworkCreate = true
  /\ ty_ok CourseworkUpdate = true /\ ty_ok CourseworkRead = true
  /\ ty_ok AssignmentBase = true /\ ty_ok AssignmentCreate = true
  /\ ty_ok AssignmentUpdate = true /\ ty_ok AssignmentRead = true.
Proof. repeat split; reflexivity. Qed.

Lemma ser_null v : ser v = JNull -> v = VNone.
Proof. destruct v; cbn; congruence. Qed.

(** A well-formed value other than [None] passes an optional field. *)
Lemma validate_opt_ser t v g :
  ty_ok t = true -> wtb t v = true -> v <> VNone ->
  validate (TOpt t) (ser v) g = (Ok (fill v), g).
Proof.
  intros Hok Hw Hn; cbn [validate].
  destruct (ser v) eqn:E; try (rewrite <- E; exact (validate_ser t Hok v g Hw)).
  exfalso; exact (Hn (ser_null v E)).
Qed.

Lemma wtb_not_none t v : wtb t v = true -> (forall t', t <> TOpt t') -> v <> VNone.
Proof. intros Hw Ht ->; destruct t; try discriminate; exact (Ht t eq_refl). Qed.

Lemma carries_false fs n : carries fs n = false -> ~ In n (names fs).
Proof.
  unfold carries; intros H Hin.
  assert (E : existsb (String.eqb n) (names fs) = true)
    by (apply existsb_exists; exists n; split; [exact Hin | apply String.eqb_refl]).
  congruence.
Qed.

Ltac in_list := cbn [In]; repeat (first [left; reflexivity | right]).

(** Keys of a patch that name no field of the model are dropped. *)
Lemma validate_model_extra fs k j kvs :
  carries fs k = false ->
  validate (TModel fs) (JObj ((k, j) :: kvs)) = validate (TModel fs) (JObj kvs).
Proof.
  intro H; cbn [validate]; rewrite (validate_fields_extra validate kvs fs k j (carries_false fs k H)).
  reflexivity.
Qed.

(** ** The first field of a model *)

Lemma validate_fields_head_factory vt kvs n t f rest g :
  lookup n kvs = None ->
  validate_fields vt kvs (((n, t), DefFactory f) :: rest) g
  = let '(v, h) := run_factory f g in
    let '(p, k) := validate_fields vt kvs rest h in
    let '(out, set, es) := p in (((n, v) :: out, set, es), k).
Proof.
  intro Hl; cbn [validate_fields]; rewrite Hl; unfold bind, ret; cbv beta.
  destruct (run_factory f g) as [v h]; destruct (validate_fields vt kvs rest h) as [[[o s] es] k].
  reflexivity.
Qed.

Lemma validate_fields_head_present vt kvs n t d rest j g :
  lookup n kvs = Some j ->
  validate_fields vt kvs (((n, t), d) :: rest) g
  = let '(r, h) := vt t j g in
    let '(p, k) := validate_fields vt kvs rest h in
    let '(out, set, es) := p in
    (match r with
     | Ok v => ((n, v) :: out, n :: set, es)
     | Err e => (out, set, prefix (LKey n) e ++ es)
     end, k).
Proof.
  intro Hl; cbn [validate_fields]; rewrite Hl; unfold bind, ret; cbv beta.
  destruct (vt t j g) as [r h]; destruct (validate_fields vt kvs rest h) as [[[o s] es] k].
  reflexivity.
Qed.

(** An absent first field with a default factory takes the factory's
    value at the initial generator state. *)
Lemma validate_model_head_factory n t f rest kvs g v g' :
  lookup n kvs = None ->
  validate (TModel (((n, t), DefFactory f) :: rest)) (JObj kvs) g = (Ok v, g') ->
  get n v = Some (fst (run_factory f g)).
Proof.
  intros Hl E; apply validate_model_fields in E; subst v; cbn [get].
  rewrite (validate_fields_head_factory validate kvs n t f rest g Hl).
  destruct (run_factory f g) as [w h]; destruct (validate_fields validate kvs rest h) as [[[o s] es] k].
  cbn; rewrite String.eqb_refl; reflexivity.
Qed.

(** A present first field that validates keeps its validated value. *)
Lemma validate_model_head_present n t d rest kvs j g w h v g' :
  lookup n kvs = Some j -> validate t j g = (Ok w, h) ->
  validate (TModel (((n, t), d) :: rest)) (JObj kvs) g = (Ok v, g') ->
  get n v = Some w.
Proof.
  intros Hl Ej E; apply validate_model_fields in E; subst v; cbn [get].
  rewrite (validate_fields_head_present validate kvs n t d rest j g Hl), Ej.
  destruct (validate_fields validate kvs rest h) as [[[o s] es] k].
  cbn; rewrite String.eqb_refl; reflexivity.
Qed.

(** Whether a first field with a default factory is supplied (with a valid
    value) or left to its default does not change the outcome's errors. *)
Lemma validate_model_head_shape n t f rest kvs j g1 g2 w h :
  ~ In n (names rest) -> lookup n kvs = None -> validate t j g2 = (Ok w, h) ->
  shape (fst (validate (TModel (((n, t), DefFactory f) :: rest)) (JObj kvs) g1))
  = shape (fst (validate (TModel (((n, t), DefFactory f) :: rest)) (JObj ((n, j) :: kvs)) g2)).
Proof.
  intros Hn Hl Ej; cbn [validate]; unfold bind, ret; cbv beta.
  rewrite (validate_fields_head_factory validate kvs n t f rest g1 Hl).
  assert (Hl' : lookup n ((n, j) :: kvs) = Some j) by (cbn; rewrite String.eqb_refl; reflexivity).
  rewrite (validate_fields_head_present validate ((n, j) :: kvs) n t (DefFactory f) rest j g2 Hl'), Ej.
  rewrite (validate_fields_extra validate kvs rest n j Hn).
  destruct (run_factory f g1) as [v k1].
  assert (HF : Forall (fun f : field => forall j g1 g2,
            shape (fst (validate (snd (fst f)) j g1))
            = shape (fst (validate (snd (fst f)) j g2))) rest)
    by (apply Forall_forall; intros x _ j' g g'; apply validate_shape).
  pose proof (validate_fields_errors kvs rest k1 h HF) as E.
  destruct (validate_fields validate kvs rest k1) as [[[o1 s1] e1] h1],
           (validate_fields validate kvs rest h) as [[[o2 s2] e2] h2]; cbn in E |- *; subst.
  destruct e2; reflexivity.
Qed.

(** An explicit [null] against an omission, at the level of the model. *)
Lemma validate_model_null fs n t kvs g :
  NoDup (names fs) -> In ((n, TOpt t), DefNone) fs -> lookup n kvs = None ->
  snd (validate (TModel fs) (JObj ((n, JNull) :: kvs)) g)
  = snd (validate (TModel fs) (JObj kvs) g)
  /\ shape (fst (validate (TModel fs) (JObj ((n, JNull) :: kvs)) g))
     = shape (fst (validate (TModel fs) (JObj kvs) g))
  /\ (forall v1 v2, fst (validate (TModel fs) (JObj ((n, JNull) :: kvs)) g) = Ok v1 ->
        fst (validate (TModel fs) (JObj kvs) g) = Ok v2 ->
        erase v1 = erase v2 /\ get n v1 = Some VNone /\ get n v2 = Some VNone
        /\ In n (fields_set v1) /\ ~ In n (fields_set v2)).
Proof.
  intros Hnd Hin Hl; cbn [validate]; unfold bind, ret; cbv beta.
  destruct (validate_fields validate ((n, JNull) :: kvs) fs g) as [[[o1 s1] e1] g1] eqn:E1,
           (validate_fields validate kvs fs g) as [[[o2 s2] e2] g2] eqn:E2.
  destruct (validate_fields_null kvs fs n t g o1 s1 e1 g1 o2 s2 e2 g2 Hnd Hin Hl E1 E2)
    as (<- & <- & <- & Hlk & Hs1 & Hs2).
  split; [reflexivity|]; split; [destruct e1; reflexivity|].
  intros v1 v2 R1 R2; destruct e1; [|discriminate R1].
  injection R1 as <-; injection R2 as <-.
  cbn [erase get fields_set]; repeat split; assumption.
Qed.

(** ** Claims *)

(** C1 (counterexample): the Coursework variants carry no [created_at]:
    neither [CourseworkBase], nor [CourseworkCreate], nor [CourseworkRead]
    declares it. *)
Lemma C1_counterexample :
  carries CourseworkBase_fields "created_at" = false
  /\ carries CourseworkCreate_fields "created_at" = false
  /\ carries CourseworkRead_fields "created_at" = false.
Proof. repeat split; reflexivity. Qed.

(** C1 (amended): the Assignment variants follow the timestamp layout:
    [AssignmentRead] carries [created_at] and [updated_at], [AssignmentBase]
    and [AssignmentCreate] carry [created_at] and no [updated_at].  The
    Coursework variants do not: [CourseworkBase] and [CourseworkCreate]
    carry neither timestamp and [CourseworkRead] carries [updated_at] only. *)
Theorem C1_timestamp_fields :
  carries AssignmentRead_fields "created_at" = true
  /\ carries AssignmentRead_fields "updated_at" = true
  /\ carries AssignmentBase_fields "created_at" = true
  /\ carries AssignmentBase_fields "updated_at" = false
  /\ carries AssignmentCreate_fields "created_at" = true
  /\ carries AssignmentCreate_fields "updated_at" = false
  /\ carries CourseworkBase_fields "created_at" = false
  /\ carries CourseworkBase_fields "updated_at" = false
  /\ carries CourseworkCreate_fields "created_at" = false
  /\ carries CourseworkCreate_fields "updated_at" = false
  /\ carries CourseworkRead_fields "created_at" = false
  /\ carries CourseworkRead_fields "updated_at" = true.
Proof. repeat split; reflexivity. Qed.

(** C2 (counterexample): [CourseworkBase] declares [id] but
    [CourseworkUpdate] does not; a patch mentioning [id] is accepted and the
    constructed patch has no [id]. *)
Lemma C2_counterexample :
  carries CourseworkBase_fields "id" = true
  /\ carries CourseworkUpdate_fields "id" = false
  /\ match validate CourseworkUpdate (JObj [("id", JStr sample_uuid)]) gen0 with
     | (Ok v, _) => get "id" v = None
     | _ => False
     end.
Proof. split; [reflexivity|]; split; [reflexivity|]; vm_compute; reflexivity. Qed.

(** C2 (amended): the fields [title], [semester], [professor] and [people]
    of [CourseworkBase] appear on [CourseworkUpdate] with the same type made
    optional and default [None]; [id] does not appear, and an [id] key of a
    patch is ignored.  For every well-formed [CourseworkBase] value, a patch
    mentioning one of those four fields with that value's serialisation
    validates and carries the value; the empty patch validates with the four
    fields [None]. *)
Theorem C2_update_fields :
  (forall n, In n ["title"; "semester"; "professor"; "people"] ->
     decl n CourseworkUpdate_fields
     = option_map (fun td => (TOpt (fst td), DefNone)) (decl n CourseworkBase_fields))
  /\ carries CourseworkUpdate_fields "id" = false
  /\ (forall j kvs, validate CourseworkUpdate (JObj (("id", j) :: kvs))
                    = validate CourseworkUpdate (JObj kvs))
  /\ (forall v n w g, wtb CourseworkBase v = true ->
        In n ["title"; "semester"; "professor"; "people"] -> get n v = Some w ->
        exists u, fst (validate CourseworkUpdate (JObj [(n, ser w)]) g) = Ok u
                  /\ get n u = Some (fill w))
  /\ (forall g, exists u, fst (validate CourseworkUpdate (JObj []) g) = Ok u
        /\ forall n, In n ["title"; "semester"; "professor"; "people"] ->
                     get n u = Some VNone).
Proof.
  split; [intros n Hn; destruct Hn as [<-|[<-|[<-|[<-|[]]]]]; reflexivity|].
  split; [reflexivity|].
  split; [intros j kvs; apply validate_model_extra; reflexivity|].
  split.
  - intros v n w g Hw Hn Hg.
    destruct v as [| | | | | |kvs s]; try discriminate Hw.
    unfold CourseworkBase in Hw; cbn [wtb] in Hw; cbn [get] in Hg.
    pose proof (nodupb_NoDup _ (eq_refl : nodupb (names CourseworkBase_fields) = true)) as Hnd.
    destruct schemas_ok as (Hp & _).
    destruct Hn as [<-|[<-|[<-|[<-|[]]]]].
    + destruct (wt_fields_lookup wtb _ kvs "title" TStr Required Hw Hnd ltac:(in_list))
        as [w' [Hl Hwt]]; rewrite Hl in Hg; injection Hg as ->.
      pose proof (validate_opt_ser TStr w g eq_refl Hwt
                    (wtb_not_none _ _ Hwt ltac:(discriminate))) as Hv.
      unfold CourseworkUpdate; cbn [validate]; cbn -[validate]; unfold bind, ret; cbv beta; rewrite Hv; cbn; eexists; split; reflexivity.
    + destruct (wt_fields_lookup wtb _ kvs "semester" TStr Required Hw Hnd ltac:(in_list))
        as [w' [Hl Hwt]]; rewrite Hl in Hg; injection Hg as ->.
      pose proof (validate_opt_ser TStr w g eq_refl Hwt
                    (wtb_not_none _ _ Hwt ltac:(discriminate))) as Hv.
      unfold CourseworkUpdate; cbn [validate]; cbn -[validate]; unfold bind, ret; cbv beta; rewrite Hv; cbn; eexists; split; reflexivity.
    + destruct (wt_fields_lookup wtb _ kvs "professor" PersonBase Required Hw Hnd
                  ltac:(in_list)) as [w' [Hl Hwt]]; rewrite Hl in Hg; injection Hg as ->.
      pose proof (validate_opt_ser PersonBase w g Hp Hwt
                    (wtb_not_none _ _ Hwt ltac:(discriminate))) as Hv.
      unfold CourseworkUpdate; cbn [validate]; cbn -[validate PersonBase]; unfold bind, ret; cbv beta; rewrite Hv; cbn; eexists; split; reflexivity.
    + destruct (wt_fields_lookup wtb _ kvs "people" (TList PersonBase) (DefFactory FList)
                  Hw Hnd ltac:(in_list)) as [w' [Hl Hwt]]; rewrite Hl in Hg; injection Hg as ->.
      pose proof (validate_opt_ser (TList PersonBase) w g Hp Hwt
                    (wtb_not_none _ _ Hwt ltac:(discriminate))) as Hv.
      unfold CourseworkUpdate; cbn [validate]; cbn -[validate PersonBase]; unfold bind, ret; cbv beta; rewrite Hv; cbn; eexists; split; reflexivity.
  - intro g; eexists; split; [reflexivity|].
    intros n Hn; destruct Hn as [<-|[<-|[<-|[<-|[]]]]]; reflexivity.
Qed.

Ltac in_fields :=
  cbv [AssignmentCreate_fields CourseworkCreate_fields extend fold_left
       AssignmentBase_fields CourseworkBase_fields AssignmentUpdate_fields
       CourseworkUpdate_fields PersonBase_fields];
  in_list.

(** C3: an input document omitting [title], [description] or [due_date]
    fails validation as [AssignmentBase] and [AssignmentCreate], and one
    omitting [title] or [semester] fails as [CourseworkBase] and
    [CourseworkCreate]; no default is substituted: the result is an error,
    and the errors include a [missing] error located at the omitted field. *)
Theorem C3_missing_required_fails (n : string) (kvs : list (string * json)) (g : gen) :
  lookup n kvs = None ->
  (In n ["title"; "description"; "due_date"] ->
     forall t, In t [AssignmentBase; AssignmentCreate] ->
     exists es, fst (validate t (JObj kvs) g) = Err es
                /\ In (mkerr [LKey n] "missing") es)
  /\ (In n ["title"; "semester"] ->
     forall t, In t [CourseworkBase; CourseworkCreate] ->
     exists es, fst (validate t (JObj kvs) g) = Err es
                /\ In (mkerr [LKey n] "missing") es).
Proof.
  intro Hl; split; intros Hn t Ht.
  - destruct Ht as [<-|[<-|[]]];
      [unfold AssignmentBase | unfold AssignmentCreate];
      (destruct Hn as [<-|[<-|[<-|[]]]];
       [ apply (validate_model_missing _ kvs "title" TStr g); [in_fields | exact Hl]
       | apply (validate_model_missing _ kvs "description" TStr g); [in_fields | exact Hl]
       | apply (validate_model_missing _ kvs "due_date" TDate g); [in_fields | exact Hl] ]).
  - destruct Ht as [<-|[<-|[]]];
      [unfold CourseworkBase | unfold CourseworkCreate];
      (destruct Hn as [<-|[<-|[]]];
       [ apply (validate_model_missing _ kvs "title" TStr g); [in_fields | exact Hl]
       | apply (validate_model_missing _ kvs "semester" TStr g); [in_fields | exact Hl] ]).
Qed.

Lemma C3_witness :
  lookup "due_date" [("title", JStr "HW1")] = None
  /\ ((In "due_date" ["title"; "description"; "due_date"] ->
       forall t, In t [AssignmentBase; AssignmentCreate] ->
       exists es, fst (validate t (JObj [("title", JStr "HW1")]) gen0) = Err es
                  /\ In (mkerr [LKey "due_date"] "missing") es)
      /\ (In "due_date" ["title"; "semester"] ->
       forall t, In t [CourseworkBase; CourseworkCreate] ->
       exists es, fst (validate t (JObj [("title", JStr "HW1")]) gen0) = Err es
                  /\ In (mkerr [LKey "due_date"] "missing") es)).
Proof.
  split; [reflexivity|].
  apply (C3_missing_required_fails "due_date" [("title", JStr "HW1")] gen0).
  reflexivity.
Defined.

Lemma validate_uuid_str s u g :
  parse_uuid (list_ascii_of_string s) = Some u -> validate TUuid (JStr s) g = (Ok (VUuid u), g).
Proof. intro H; cbn [validate]; rewrite H; reflexivity. Qed.

(** C4: for [AssignmentCreate] and [CourseworkCreate] inputs without an
    [id], a successful validation assigns the freshly generated UUID, which
    is a well-formed version-4 UUID; supplying a valid UUID string instead
    changes nothing about whether the input validates, and the supplied UUID
    is kept.  The example input of the spec (section 8) validates as
    [AssignmentCreate] from every generator state, with the generated
    [id], the clock reading of the call as [created_at] and an empty
    [coursework.people]. *)
Theorem C4_create_id :
  (forall t kvs g, In t [AssignmentCreate; CourseworkCreate] -> lookup "id" kvs = None ->
     (forall v g', validate t (JObj kvs) g = (Ok v, g') ->
        get "id" v = Some (VUuid (uuid4_of (rng g (rpos g))))
        /\ uuid_v4_ok (uuid4_of (rng g (rpos g))) = true)
     /\ (forall s u g2, parse_uuid (list_ascii_of_string s) = Some u ->
        shape (fst (validate t (JObj kvs) g))
        = shape (fst (validate t (JObj (("id", JStr s) :: kvs)) g2))
        /\ (forall v g', validate t (JObj (("id", JStr s) :: kvs)) g2 = (Ok v, g') ->
              get "id" v = Some (VUuid u))))
  /\ (forall g, exists v g', validate AssignmentCreate hw1_input g = (Ok v, g')
        /\ get "id" v = Some (VUuid (uuid4_of (rng g (rpos g))))
        /\ get "created_at" v = Some (VDateTime (vdt_val (clock g (tick g))))
        /\ exists c, get "coursework" v = Some c /\ get "people" c = Some (VList [])).
Proof.
  split.
  - intros t kvs g Ht Hl.
    destruct Ht as [<-|[<-|[]]];
      [unfold AssignmentCreate; cbv [AssignmentCreate_fields extend fold_left AssignmentBase_fields]
      |unfold CourseworkCreate; cbv [CourseworkCreate_fields extend fold_left CourseworkBase_fields]];
      (split;
       [ intros v g' E; split;
         [ exact (validate_model_head_factory _ _ _ _ _ _ _ _ Hl E) | apply uuid4_of_ok ]
       | intros s u g2 Hp; pose proof (validate_uuid_str s u g2 Hp) as Ej; split;
         [ refine (validate_model_head_shape _ _ _ _ _ _ g g2 _ _ _ Hl Ej);
           apply carries_false; reflexivity
         | intros v g' E;
           refine (validate_model_head_present _ _ _ _ _ _ _ _ _ _ _ _ Ej E);
           reflexivity ] ]).
  - intros [r p c k].
    destruct (validate AssignmentCreate hw1_input (mkgen r p c k)) as [res g'] eqn:E.
    cbv -[uuid4_of] in E; injection E as <- <-.
    eexists; eexists; split; [reflexivity|].
    split; [reflexivity|]; split; [reflexivity|].
    eexists; split; reflexivity.
Qed.

Lemma C4_witness :
  In AssignmentCreate [AssignmentCreate; CourseworkCreate] /\ lookup "id" hw1_doc = None
  /\ parse_uuid (list_ascii_of_string sample_uuid) = Some 0x12345678123442348234123456789abc
  /\ shape (fst (validate AssignmentCreate (JObj hw1_doc) gen0))
     = shape (fst (validate AssignmentCreate (JObj (("id", JStr sample_uuid) :: hw1_doc)) gen0)).
Proof.
  split; [in_list|]; split; [reflexivity|]; split; [vm_compute; reflexivity|].
  exact (proj1 (proj2 (proj1 C4_create_id AssignmentCreate hw1_doc gen0
                         ltac:(in_list) eq_refl)
                      sample_uuid _ gen0 ltac:(vm_compute; reflexivity))).
Defined.

(** C5: a valid [AssignmentCreate] input, once validated, serialised and
    validated again (from any generator state), gives back the same
    object: field for field equal (pydantic's [==], which ignores the
    fields set), with every field now set, and nothing generated anew.  Its
    [id] and [created_at] are present and well-formed, whether or not the
    input supplied them. *)
Theorem C5_create_roundtrip (j : json) (g : gen) (v : val) (g' : gen) :
  validate AssignmentCreate j g = (Ok v, g') ->
  (forall h, validate AssignmentCreate (ser v) h = (Ok (fill v), h))
  /\ erase (fill v) = erase v
  /\ (exists u, get "id" v = Some (VUuid u) /\ uuid_ok u = true)
  /\ (exists d, get "created_at" v = Some (VDateTime d) /\ dt_ok d = true).
Proof.
  intro E.
  destruct schemas_ok as (_ & _ & _ & _ & _ & _ & Hok & _).
  pose proof (validate_wt AssignmentCreate Hok j g v g' E) as Hw.
  split; [intro h; exact (validate_ser AssignmentCreate Hok v h Hw)|].
  split; [apply erase_fill|].
  destruct v as [| | | | | |kvs s]; try discriminate Hw.
  unfold AssignmentCreate in Hw; cbn [wtb] in Hw; cbn [get].
  pose proof (nodupb_NoDup _ (eq_refl : nodupb (names AssignmentCreate_fields) = true)) as Hnd.
  split.
  - destruct (wt_fields_lookup wtb _ kvs "id" TUuid (DefFactory FUuid4) Hw Hnd
                ltac:(in_fields)) as [w [Hl Hwt]].
    destruct w; try discriminate Hwt; exists u; split; [exact Hl | exact Hwt].
  - destruct (wt_fields_lookup wtb _ kvs "created_at" TDateTime (DefFactory FUtcnow) Hw Hnd
                ltac:(in_fields)) as [w [Hl Hwt]].
    destruct w; try discriminate Hwt; exists t; split; [exact Hl | exact Hwt].
Qed.

Lemma C5_witness :
  exists v g', validate AssignmentCreate hw1_input gen0 = (Ok v, g')
  /\ (forall h, validate AssignmentCreate (ser v) h = (Ok (fill v), h))
  /\ erase (fill v) = erase v
  /\ (exists u, get "id" v = Some (VUuid u) /\ uuid_ok u = true)
  /\ (exists d, get "created_at" v = Some (VDateTime d) /\ dt_ok d = true).
Proof.
  destruct (validate AssignmentCreate hw1_input gen0) as [r g'] eqn:E.
  pose proof E as E0; cbv -[uuid4_of] in E0; injection E0 as <- <-.
  eexists; eexists; split; [exact E|].
  exact (C5_create_roundtrip hw1_input gen0 _ _ E).
Defined.

(** C6: an Assignment input (for any of [AssignmentBase],
    [AssignmentCreate], [AssignmentUpdate] and [AssignmentRead]) whose
    [coursework.professor.email] is a string that is not a well-formed
    address fails validation, and its errors include a [value_error]
    located at [coursework.professor.email]. *)
Theorem C6_nested_email_error (kvs ckvs pkvs : list (string * json)) (s : string) (g : gen) :
  lookup "coursework" kvs = Some (JObj ckvs) ->
  lookup "professor" ckvs = Some (JObj pkvs) ->
  lookup "email" pkvs = Some (JStr s) -> email_ok s = false ->
  forall t, In t [AssignmentBase; AssignmentCreate; AssignmentUpdate; AssignmentRead] ->
  exists es, fst (validate t (JObj kvs) g) = Err es
    /\ In (mkerr [LKey "coursework"; LKey "professor"; LKey "email"] "value_error") es.
Proof.
  intros Hc Hp He Hs t Ht.
  assert (E1 : forall g, exists es, fst (validate TEmail (JStr s) g) = Err es
                                    /\ In (mkerr [] "value_error") es).
  { intro h; cbn; rewrite Hs; eexists; split; [reflexivity | left; reflexivity]. }
  assert (E2 : forall g, exists es, fst (validate PersonBase (JObj pkvs) g) = Err es
                                    /\ In (mkerr [LKey "email"] "value_error") es).
  { intro h; refine (validate_model_nested PersonBase_fields pkvs "email" TEmail Required
                       _ _ h _ He E1); in_fields. }
  assert (E3 : forall g, exists es, fst (validate CourseworkBase (JObj ckvs) g) = Err es
                 /\ In (mkerr [LKey "professor"; LKey "email"] "value_error") es).
  { intro h; refine (validate_model_nested CourseworkBase_fields ckvs "professor" PersonBase
                       Required _ _ h _ Hp E2); in_fields. }
  assert (E3' : forall g, exists es, fst (validate (TOpt CourseworkBase) (JObj ckvs) g) = Err es
                 /\ In (mkerr [LKey "professor"; LKey "email"] "value_error") es)
    by exact E3.
  destruct Ht as [<-|[<-|[<-|[<-|[]]]]].
  - refine (validate_model_nested AssignmentBase_fields kvs "coursework" CourseworkBase
              Required _ _ g _ Hc E3); in_fields.
  - refine (validate_model_nested AssignmentCreate_fields kvs "coursework" CourseworkBase
              Required _ _ g _ Hc E3); in_fields.
  - refine (validate_model_nested AssignmentUpdate_fields kvs "coursework"
              (TOpt CourseworkBase) DefNone _ _ g _ Hc E3'); in_fields.
  - refine (validate_model_nested AssignmentRead_fields kvs "coursework" CourseworkBase
              Required _ _ g _ Hc E3).
    cbv [AssignmentRead_fields extend fold_left upsert AssignmentBase_fields]; in_list.
Qed.

Lemma C6_witness :
  exists es, fst (validate AssignmentCreate
                    (JObj (assignment_doc (coursework_doc (professor_doc "d.f.edu")))) gen0)
             = Err es
    /\ In (mkerr [LKey "coursework"; LKey "professor"; LKey "email"] "value_error") es.
Proof.
  apply (C6_nested_email_error (assignment_doc (coursework_doc (professor_doc "d.f.edu")))
           (coursework_doc (professor_doc "d.f.edu"))
           (professor_doc "d.f.edu") "d.f.edu" gen0 eq_refl eq_refl eq_refl
           ltac:(vm_compute; reflexivity) AssignmentCreate ltac:(in_list)).
Defined.

(** C7 (counterexample): validating the example input of the spec twice in
    a row as [AssignmentCreate], the second call continuing from the
    generator state the first left, gives two different results (the
    generated [id]s differ). *)
Lemma C7_counterexample :
  fst (validate AssignmentCreate hw1_input gen0)
  <> fst (validate AssignmentCreate hw1_input (snd (validate AssignmentCreate hw1_input gen0))).
Proof. vm_compute; discriminate. Qed.

(** C7 (amended): validation is a function of the input and of the state of
    the generator (random source and clock) it draws [uuid4] and [utcnow]
    defaults from; it changes nothing but that state, which it only
    advances.  Whether it fails, and with which errors, does not depend on
    the generator state; and an input for which validation draws nothing
    gives the same result from every generator state, leaving that state
    as it was. *)
Theorem C7_generator_dependence :
  (forall t j g, gen_le g (snd (validate t j g)))
  /\ (forall t j g1 g2, shape (fst (validate t j g1)) = shape (fst (validate t j g2)))
  /\ (forall t j g1 g2, unmoved g1 (snd (validate t j g1)) ->
        validate t j g2 = (fst (validate t j g1), g2)).
Proof.
  split; [exact validate_gen_le|].
  split; [intros t; exact (validate_shape t)|].
  intros t; exact (validate_pure t).
Qed.

Lemma C7_witness :
  unmoved gen0 (snd (validate AssignmentUpdate (JObj [("id", JStr sample_uuid)]) gen0))
  /\ validate AssignmentUpdate (JObj [("id", JStr sample_uuid)])
       (mkgen (fun _ => 0) 5 (clock gen0) 3)
     = (fst (validate AssignmentUpdate (JObj [("id", JStr sample_uuid)]) gen0),
        mkgen (fun _ => 0) 5 (clock gen0) 3).
Proof.
  assert (U : unmoved gen0 (snd (validate AssignmentUpdate
                                   (JObj [("id", JStr sample_uuid)]) gen0)))
    by (split; vm_compute; reflexivity).
  split; [exact U|].
  exact (proj2 (proj2 C7_generator_dependence) AssignmentUpdate _ gen0 _ U).
Defined.

(** C8: an [AssignmentUpdate] patch document that omits [id] gets, when it
    validates, the freshly generated UUID as [id] (a version-4 UUID, not
    [None]); in particular the empty patch document validates, with a
    generated [id] and every other field [None]. *)
Theorem C8_update_id :
  (forall kvs g v g', lookup "id" kvs = None ->
     validate AssignmentUpdate (JObj kvs) g = (Ok v, g') ->
     get "id" v = Some (VUuid (uuid4_of (rng g (rpos g))))
     /\ uuid_v4_ok (uuid4_of (rng g (rpos g))) = true)
  /\ (forall g, exists v g', validate AssignmentUpdate (JObj []) g = (Ok v, g')
       /\ get "id" v = Some (VUuid (uuid4_of (rng g (rpos g))))
       /\ forall n, In n ["title"; "description"; "due_date"; "coursework"; "created_at"] ->
                    get n v = Some VNone).
Proof.
  split.
  - intros kvs g v g' Hl E; unfold AssignmentUpdate, AssignmentUpdate_fields in E.
    split; [exact (validate_model_head_factory _ _ _ _ _ _ _ _ Hl E) | apply uuid4_of_ok].
  - intros [r p c k].
    destruct (validate AssignmentUpdate (JObj []) (mkgen r p c k)) as [res g'] eqn:E.
    pose proof E as E0; cbv -[uuid4_of] in E0; injection E0 as <- <-.
    eexists; eexists; split; [exact E|]; split; [reflexivity|].
    intros n Hn; destruct Hn as [<-|[<-|[<-|[<-|[<-|[]]]]]]; reflexivity.
Qed.

Lemma C8_witness :
  lookup "id" [("title", JStr "HW1 (revised)")] = None
  /\ (exists v g', validate AssignmentUpdate (JObj [("title", JStr "HW1 (revised)")]) gen0
                   = (Ok v, g')
       /\ get "id" v = Some (VUuid (uuid4_of (rng gen0 (rpos gen0))))
       /\ uuid_v4_ok (uuid4_of (rng gen0 (rpos gen0))) = true).
Proof.
  split; [reflexivity|].
  destruct (validate AssignmentUpdate (JObj [("title", JStr "HW1 (revised)")]) gen0)
    as [res g'] eqn:E.
  pose proof E as E0; cbv -[uuid4_of] in E0; injection E0 as <- <-.
  eexists; eexists; split; [exact E|].
  exact (proj1 C8_update_id [("title", JStr "HW1 (revised)")] gen0 _ _ eq_refl E).
Defined.

(** C9: in [CourseworkUpdate], [created_at] does not accept [null]: a patch
    document with an explicit [null] for [created_at] fails validation with
    a [datetime_type] error located at [created_at]; each of the other
    fields accepts [null] (giving [None]); and a patch omitting
    [created_at] that validates has as [created_at] a reading of the
    clock. *)
Theorem C9_created_at_not_nullable :
  (forall kvs g, lookup "created_at" kvs = Some JNull ->
     exists es, fst (validate CourseworkUpdate (JObj kvs) g) = Err es
                /\ In (mkerr [LKey "created_at"] "datetime_type") es)
  /\ (forall n g, In n ["title"; "semester"; "professor"; "people"] ->
     exists v g', validate CourseworkUpdate (JObj [(n, JNull)]) g = (Ok v, g')
                  /\ get n v = Some VNone)
  /\ (forall kvs g v g', lookup "created_at" kvs = None ->
     validate CourseworkUpdate (JObj kvs) g = (Ok v, g') ->
     exists k, get "created_at" v = Some (VDateTime (vdt_val (clock g k)))).
Proof.
  split; [|split].
  - intros kvs g Hl.
    assert (E1 : forall g, exists es, fst (validate TDateTime JNull g) = Err es
                                      /\ In (mkerr [] "datetime_type") es)
      by (intro h; eexists; split; [reflexivity | left; reflexivity]).
    refine (validate_model_nested CourseworkUpdate_fields kvs "created_at" TDateTime
              (DefFactory FUtcnow) _ _ g _ Hl E1); in_fields.
  - intros n [r p c k] Hn;
      destruct Hn as [<-|[<-|[<-|[<-|[]]]]];
      (match goal with |- exists v g', validate ?t ?j ?g0 = _ /\ _ =>
         destruct (validate t j g0) as [res g'] eqn:E end;
       pose proof E as E0; cbv -[uuid4_of] in E0; injection E0 as <- <-;
       eexists; eexists; split; [exact E | reflexivity]).
  - intros kvs g v g' Hl E; apply validate_model_fields in E; subst v; cbn [get].
    destruct (validate_fields_factory kvs CourseworkUpdate_fields "created_at" TDateTime FUtcnow g
                (nodupb_NoDup (names CourseworkUpdate_fields) eq_refl) ltac:(in_fields) Hl) as [h [[_ [Hc _]] Hv]].
    exists (tick h); rewrite Hv, <- Hc; reflexivity.
Qed.

Lemma C9_witness :
  lookup "created_at" [("title", JStr "CC"); ("created_at", JNull)] = Some JNull
  /\ (exists es, fst (validate CourseworkUpdate
                        (JObj [("title", JStr "CC"); ("created_at", JNull)]) gen0) = Err es
                 /\ In (mkerr [LKey "created_at"] "datetime_type") es)
  /\ (exists v g', validate CourseworkUpdate (JObj [("people", JNull)]) gen0 = (Ok v, g')
                   /\ get "people" v = Some VNone).
Proof.
  split; [reflexivity|]; split.
  - exact (proj1 C9_created_at_not_nullable [("title", JStr "CC"); ("created_at", JNull)] gen0 eq_refl).
  - exact (proj1 (proj2 C9_created_at_not_nullable) "people" gen0 ltac:(in_list)).
Defined.

(** C10 (counterexample): the [CourseworkUpdate] patches [{"title": null}]
    and [{}], validated from the same generator state, give equal field
    values ([title] is [None] in both) but different fields sets: [title]
    is set in the first only, which [exclude_unset] and [model_fields_set]
    expose. *)
Lemma C10_counterexample :
  match validate CourseworkUpdate (JObj [("title", JNull)]) gen0,
        validate CourseworkUpdate (JObj []) gen0 with
  | (Ok v1, _), (Ok v2, _) =>
      get "title" v1 = Some VNone /\ get "title" v2 = Some VNone
      /\ erase v1 = erase v2 /\ fields_set v1 = ["title"] /\ fields_set v2 = []
  | _, _ => False
  end.
Proof. vm_compute; repeat split. Qed.

(** C10 (amended): for the optional fields of [AssignmentUpdate] ([title],
    [description], [due_date], [coursework], [created_at]) and of
    [CourseworkUpdate] ([title], [semester], [professor], [people]), a patch
    with an explicit [null] and the same patch with the field omitted,
    validated from the same generator state, both validate or both fail
    (with the same errors), advance the generator alike, and when they
    validate give patches equal under pydantic's [==], with the field
    [None] in both.  They still differ in the fields set: the field is in
    the fields set of the explicit-[null] patch and not in that of the
    other, so [exclude_unset] distinguishes clearing a field from leaving it
    unchanged. *)
Theorem C10_null_vs_omitted (fs : list field) (n : string) (kvs : list (string * json)) (g : gen) :
  In (fs, n) [(AssignmentUpdate_fields, "title"); (AssignmentUpdate_fields, "description");
              (AssignmentUpdate_fields, "due_date"); (AssignmentUpdate_fields, "coursework");
              (AssignmentUpdate_fields, "created_at");
              (CourseworkUpdate_fields, "title"); (CourseworkUpdate_fields, "semester");
              (CourseworkUpdate_fields, "professor"); (CourseworkUpdate_fields, "people")] ->
  lookup n kvs = None ->
  snd (validate (TModel fs) (JObj ((n, JNull) :: kvs)) g)
  = snd (validate (TModel fs) (JObj kvs) g)
  /\ shape (fst (validate (TModel fs) (JObj ((n, JNull) :: kvs)) g))
     = shape (fst (validate (TModel fs) (JObj kvs) g))
  /\ (forall v1 v2, fst (validate (TModel fs) (JObj ((n, JNull) :: kvs)) g) = Ok v1 ->
        fst (validate (TModel fs) (JObj kvs) g) = Ok v2 ->
        erase v1 = erase v2 /\ get n v1 = Some VNone /\ get n v2 = Some VNone
        /\ In n (fields_set v1) /\ ~ In n (fields_set v2)).
Proof.
  intros Hin Hl.
  destruct Hin as [E|[E|[E|[E|[E|[E|[E|[E|[E|[]]]]]]]]]]; injection E as <- <-;
    [ apply (validate_model_null _ _ TStr)
    | apply (validate_model_null _ _ TStr)
    | apply (validate_model_null _ _ TDate)
    | apply (validate_model_null _ _ CourseworkBase)
    | apply (validate_model_null _ _ TDateTime)
    | apply (validate_model_null _ _ TStr)
    | apply (validate_model_null _ _ TStr)
    | apply (validate_model_null _ _ PersonBase)
    | apply (validate_model_null _ _ (TList PersonBase)) ];
    first [ exact Hl | apply nodupb_NoDup; reflexivity | in_fields ].
Qed.

Lemma C10_witness :
  lookup "title" [("semester", JStr "Spring 2026")] = None
  /\ snd (validate CourseworkUpdate (JObj [("title", JNull); ("semester", JStr "Spring 2026")]) gen0)
     = snd (validate CourseworkUpdate (JObj [("semester", JStr "Spring 2026")]) gen0).
Proof.
  split; [reflexivity|].
  exact (proj1 (C10_null_vs_omitted CourseworkUpdate_fields "title"
                  [("semester", JStr "Spring 2026")] gen0 ltac:(in_list) eq_refl)).
Defined.

(** * Further properties of the models *)

(** ** Sequencing the fields loop *)

Lemma validate_fields_app vt kvs fs1 fs2 g :
  validate_fields vt kvs (fs1 ++ fs2) g
  = let '(p1, h) := validate_fields vt kvs fs1 g in
    let '(p2, k) := validate_fields vt kvs fs2 h in
    let '(o1, s1, e1) := p1 in
    let '(o2, s2, e2) := p2 in
    ((o1 ++ o2, s1 ++ s2, e1 ++ e2), k).
Proof.
  revert g; induction fs1 as [|[[n t] d] fs1 IH]; intro g.
  - cbn [validate_fields app]; unfold ret.
    destruct (validate_fields vt kvs fs2 g) as [[[o s] e] k]; reflexivity.
  - cbn [app validate_fields].
    destruct (lookup n kvs) as [j|].
    + unfold bind, ret; cbv beta.
      destruct (vt t j g) as [r h]; rewrite IH.
      destruct (validate_fields vt kvs fs1 h) as [[[o1 s1] e1] h1].
      destruct (validate_fields vt kvs fs2 h1) as [[[o2 s2] e2] k].
      destruct r; cbn; [reflexivity | rewrite app_assoc; reflexivity].
    + destruct d as [| |f]; unfold bind, ret; cbv beta;
        [| |destruct (run_factory f g) as [v h0]];
        [set (h := g) | set (h := g) | set (h := h0)];
        rewrite IH;
        destruct (validate_fields vt kvs fs1 h) as [[[o1 s1] e1] h1];
        destruct (validate_fields vt kvs fs2 h1) as [[[o2 s2] e2] k]; reflexivity.
Qed.

(** A model with one more field, defaulting to [utcnow], that the input
    does not supply: its validation is the smaller model's, followed by one
    clock reading appended as the new field. *)
Lemma validate_model_snoc_utcnow fs n kvs g :
  lookup n kvs = None ->
  validate (TModel (fs ++ [((n, TDateTime), DefFactory FUtcnow)])) (JObj kvs) g
  = let '(r, h) := validate (TModel fs) (JObj kvs) g in
    (match r with
     | Ok (VModel o s) => Ok (VModel (o ++ [(n, VDateTime (vdt_val (clock h (tick h))))]) s)
     | _ => r
     end, snd (utcnow h)).
Proof.
  intro Hl; cbn [validate]; unfold bind, ret; cbv beta.
  rewrite validate_fields_app.
  destruct (validate_fields validate kvs fs g) as [[[o s] e] h].
  cbn [validate_fields]; rewrite Hl; unfold bind, ret; cbv beta; cbn.
  rewrite !app_nil_r; destruct e; reflexivity.
Qed.

(** ** Fields sets *)

(** When the fields loop reports no error, the fields set lists exactly
    the fields present in the input, in declaration order. *)
Lemma validate_fields_set_exact kvs fs g o s h :
  validate_fields validate kvs fs g = ((o, s, []), h) ->
  s = filter (present kvs) (names fs).
Proof.
  revert g o s h; induction fs as [|[[n t] d] fs IH]; intros g o s h E.
  - injection E as _ <- _; reflexivity.
  - revert E; cbn [validate_fields names map fname fst filter]; unfold present at 1.
    destruct (lookup n kvs) as [j|].
    + unfold bind, ret; cbv beta.
      destruct (validate t j g) as [r h1] eqn:Er.
      destruct (validate_fields validate kvs fs h1) as [[[o1 s1] e1] k] eqn:Ef.
      destruct r as [v|es]; intro E; injection E as _ <- He _.
      * subst e1; f_equal; exact (IH h1 o1 s1 k Ef).
      * apply app_eq_nil in He as [He _].
        destruct es; [|discriminate He].
        exfalso; apply (validate_err_nonempty t j g []); [rewrite Er|]; reflexivity.
    + destruct d as [| |f]; unfold bind, ret; cbv beta;
        [| |destruct (run_factory f g) as [v h0]];
        [set (h1 := g) | set (h1 := g) | set (h1 := h0)];
        destruct (validate_fields validate kvs fs h1) as [[[o1 s1] e1] k] eqn:Ef;
        intro E; injection E as _ <- He _; [discriminate He| |];
        subst e1; exact (IH h1 o1 s1 k Ef).
Qed.

Lemma validate_model_set_exact fs kvs g v g' :
  validate (TModel fs) (JObj kvs) g = (Ok v, g') ->
  fields_set v = filter (present kvs) (names fs).
Proof.
  cbn [validate]; unfold bind, ret; cbv beta.
  destruct (validate_fields validate kvs fs g) as [[[o s] es] h] eqn:E.
  destruct es; [|discriminate]; intro R; injection R as <- _; cbn [fields_set].
  exact (validate_fields_set_exact kvs fs g o s h E).
Qed.

Lemma fields_set_fill kvs s : fields_set (fill (VModel kvs s)) = map fst kvs.
Proof. reflexivity. Qed.

(** ** Errors inside lists *)

Lemma validate_items_nested vt k js i j e g :
  nth_error js i = Some j ->
  (forall g, exists es, fst (vt j g) = Err es /\ In e es) ->
  In (mkerr (LIdx (k + i) :: loc e) (kind e)) (snd (fst (validate_items vt k js g))).
Proof.
  intros Hn He; revert k i g Hn; induction js as [|j' js IH]; intros k i g Hn;
    [destruct i; discriminate|].
  cbn [validate_items]; unfold bind, ret; cbv beta.
  destruct i as [|i]; cbn [nth_error] in Hn.
  - injection Hn as ->; destruct (He g) as [es [Hes Hin]].
    destruct (vt j g) as [r h]; cbn in Hes; subst r.
    destruct (validate_items vt (S k) js h) as [p h']; cbn.
    apply in_or_app; left; apply in_map_iff; exists e; rewrite Nat.add_0_r; split;
      [reflexivity | exact Hin].
  - destruct (vt j' g) as [r h].
    specialize (IH (S k) i h Hn); rewrite Nat.add_succ_r.
    destruct (validate_items vt (S k) js h) as [p h']; cbn in IH |- *.
    destruct r; cbn; [exact IH | apply in_or_app; right; exact IH].
Qed.

(** An invalid item of a list makes the list fail, with the item's error
    located at its index. *)
Lemma validate_list_nested t js i j e g :
  nth_error js i = Some j ->
  (forall g, exists es, fst (validate t j g) = Err es /\ In e es) ->
  exists es, fst (validate (TList t) (JArr js) g) = Err es
             /\ In (mkerr (LIdx i :: loc e) (kind e)) es.
Proof.
  intros Hn He; cbn [validate]; unfold bind, ret; cbv beta.
  pose proof (validate_items_nested (validate t) 0 js i j e g Hn He) as H.
  destruct (validate_items (validate t) 0 js g) as [[vs es] h]; cbn in H |- *.
  destruct es as [|e' es]; [destruct H|]; eexists; split; [reflexivity | exact H].
Qed.

(** ** Supplied fields *)

(** A present field whose value validates (without drawing on the
    generator) keeps that value. *)
Lemma validate_fields_present kvs fs n t d j w g :
  NoDup (names fs) -> In ((n, t), d) fs -> lookup n kvs = Some j ->
  (forall g, validate t j g = (Ok w, g)) ->
  lookup n (fst (fst (fst (validate_fields validate kvs fs g)))) = Some w.
Proof.
  intros Hnd Hin Hl Hj; revert g; induction fs as [|[[m t'] d'] fs IH]; intro g;
    [destruct Hin|].
  cbn [names map fname fst] in Hnd; inversion Hnd as [|? ? Hm Hnd']; subst.
  cbn [validate_fields].
  destruct (String.eqb_spec m n) as [->|Hne].
  - destruct Hin as [E|Hin]; [|exfalso; apply Hm; exact (in_names _ _ _ _ Hin)].
    injection E as Et Ed; subst t' d'; rewrite Hl.
    unfold bind, ret; cbv beta; rewrite Hj.
    destruct (validate_fields validate kvs fs g) as [[[o s] es] k]; cbn.
    rewrite String.eqb_refl; reflexivity.
  - destruct Hin as [E|Hin]; [injection E as E; congruence|].
    assert (Hnm : String.eqb n m = false) by (apply String.eqb_neq; congruence).
    destruct (lookup m kvs) as [j'|].
    + unfold bind, ret; cbv beta.
      destruct (validate t' j' g) as [r h]; specialize (IH Hnd' Hin h).
      destruct (validate_fields validate kvs fs h) as [[[o s] es] k].
      destruct r; cbn in IH |- *; [rewrite Hnm|]; exact IH.
    + destruct d' as [| |f']; unfold bind, ret; cbv beta;
        [| |destruct (run_factory f' g) as [v h0]];
        [set (h := g) | set (h := g) | set (h := h0)];
        specialize (IH Hnd' Hin h);
        destruct (validate_fields validate kvs fs h) as [[[o s] es] k];
        cbn in IH |- *; try rewrite Hnm; exact IH.
Qed.

Lemma validate_model_present fs kvs n t d j w g v g' :
  NoDup (names fs) -> In ((n, t), d) fs -> lookup n kvs = Some j ->
  (forall g, validate t j g = (Ok w, g)) ->
  validate (TModel fs) (JObj kvs) g = (Ok v, g') -> get n v = Some w.
Proof.
  intros Hnd Hin Hl Hj E; apply validate_model_fields in E; subst v; cbn [get].
  exact (validate_fields_present kvs fs n t d j w g Hnd Hin Hl Hj).
Qed.

Lemma validate_model_factory fs kvs n t f g v g' :
  NoDup (names fs) -> In ((n, t), DefFactory f) fs -> lookup n kvs = None ->
  validate (TModel fs) (JObj kvs) g = (Ok v, g') ->
  exists h, gen_le g h /\ get n v = Some (fst (run_factory f h)).
Proof.
  intros Hnd Hin Hl E; apply validate_model_fields in E; subst v; cbn [get].
  exact (validate_fields_factory kvs fs n t f g Hnd Hin Hl).
Qed.

(** ** Reading the clock *)

Lemma validate_items_tick vt i js g :
  (forall j g, tick (snd (vt j g)) = tick g) ->
  tick (snd (validate_items vt i js g)) = tick g.
Proof.
  intro Hvt; revert i g; induction js as [|j js IH]; intros i g; [reflexivity|].
  cbn [validate_items]; unfold bind, ret; cbv beta.
  pose proof (Hvt j g) as H1; destruct (vt j g) as [r h]; cbn [snd] in H1.
  pose proof (IH (S i) h) as H2; destruct (validate_items vt (S i) js h) as [p k].
  cbn in H2 |- *; congruence.
Qed.

Lemma validate_fields_tick kvs fs g :
  Forall (fun f : field => match snd f with
                            | DefFactory FUtcnow => present kvs (fname f) = true
                            | _ => True end
            /\ forall j g, tick (snd (validate (snd (fst f)) j g)) = tick g) fs ->
  tick (snd (validate_fields validate kvs fs g)) = tick g.
Proof.
  intro HF; revert g; induction HF as [|[[n t] d] fs [Hd Hf] _ IH]; intro g; [reflexivity|].
  cbn [validate_fields]; cbn [snd fst fname] in Hd, Hf; unfold present in Hd.
  destruct (lookup n kvs) as [j|].
  - unfold bind, ret; cbv beta.
    pose proof (Hf j g) as H1; destruct (validate t j g) as [r h]; cbn [snd] in H1.
    pose proof (IH h) as H2; destruct (validate_fields validate kvs fs h) as [[[o s] es] k].
    cbn in H2 |- *; congruence.
  - destruct d as [| |f]; unfold bind, ret; cbv beta.
    + pose proof (IH g) as H2; destruct (validate_fields validate kvs fs g) as [[[o s] es] k];
        exact H2.
    + pose proof (IH g) as H2; destruct (validate_fields validate kvs fs g) as [[[o s] es] k];
        exact H2.
    + destruct f; [| discriminate Hd |]; cbn [run_factory]; unfold bind, ret; cbv beta;
        cbn [uuid4].
      * pose proof (IH (mkgen (rng g) (S (rpos g)) (clock g) (tick g))) as H2.
        destruct (validate_fields validate kvs fs _) as [[[o s] es] k]; exact H2.
      * pose proof (IH g) as H2; destruct (validate_fields validate kvs fs g) as [[[o s] es] k];
          exact H2.
Qed.

(** Validating against a type in which no field defaults to [utcnow] never
    reads the clock. *)
Lemma validate_tick t : uses_clock t = false -> forall j g, tick (snd (validate t j g)) = tick g.
Proof.
  induction t using ty_ind'; intros Hu j g; cbn [uses_clock] in Hu; try reflexivity.
  - cbn [validate]; destruct j; try reflexivity; apply (IHt Hu).
  - cbn [validate]; destruct j; try reflexivity; unfold bind, ret; cbv beta.
    pose proof (validate_items_tick (validate t) 0 l g (IHt Hu)) as H1.
    destruct (validate_items (validate t) 0 l g) as [p h]; exact H1.
  - cbn [validate]; destruct j; try reflexivity; unfold bind, ret; cbv beta.
    assert (HF : Forall (fun f : field => match snd f with
                                         | DefFactory FUtcnow => present kvs (fname f) = true
                                         | _ => True end
            /\ forall j g, tick (snd (validate (snd (fst f)) j g)) = tick g) fs).
    { apply Forall_forall; intros [[n t] d] Hin; cbn [snd fst].
      rewrite Forall_forall in H; specialize (H _ Hin); cbn [snd fst] in H.
      (* every field: no utcnow default, and a type not using the clock *)
      assert (Hall : (match d with DefFactory FUtcnow => true | _ => false end
                      || uses_clock t) = false).
      { destruct (_ || _) eqn:Ef; [|reflexivity].
        rewrite <- Hu; symmetry; apply existsb_exists; exists ((n, t), d); split; assumption. }
      apply orb_false_iff in Hall as [Hd Ht].
      split; [destruct d as [| |[| |]]; try exact I; discriminate Hd | exact (H Ht)]. }
    pose proof (validate_fields_tick kvs fs g HF) as H1.
    destruct (validate_fields validate kvs fs g) as [[[o s] es] h]; exact H1.
Qed.

(** ** Read models as extensions of the base models *)

Lemma AssignmentRead_fields_snoc :
  AssignmentRead_fields
  = AssignmentBase_fields ++ [(("updated_at", TDateTime), DefFactory FUtcnow)].
Proof. reflexivity. Qed.

Lemma CourseworkRead_fields_snoc :
  CourseworkRead_fields
  = CourseworkBase_fields ++ [(("updated_at", TDateTime), DefFactory FUtcnow)].
Proof. reflexivity. Qed.

Lemma AssignmentBase_fields_snoc :
  AssignmentBase_fields
  = firstn 5 AssignmentBase_fields ++ [(("created_at", TDateTime), DefFactory FUtcnow)].
Proof. reflexivity. Qed.

Lemma lookup_app_none {A} k (l1 l2 : list (string * A)) :
  ~ In k (map fst l1) -> lookup k (l1 ++ l2) = lookup k l2.
Proof.
  induction l1 as [|[k' v] l1 IH]; intro Hn; [reflexivity|].
  cbn [app lookup map fst] in Hn |- *.
  destruct (String.eqb_spec k k') as [->|_]; [exfalso; apply Hn; left; reflexivity|].
  apply IH; intro H; apply Hn; right; exact H.
Qed.

Lemma lookup_app_some {A} k (l1 l2 : list (string * A)) v :
  lookup k l1 = Some v -> lookup k (l1 ++ l2) = Some v.
Proof.
  induction l1 as [|[k' w] l1 IH]; [discriminate|].
  cbn [app lookup]; destruct (String.eqb k k'); [exact id | exact IH].
Qed.

(** A successful validation against a model with one more, omitted field
    defaulting to [utcnow]: the smaller model validates, and the new field
    is the clock reading taken right after it. *)
Lemma validate_model_snoc_stamp fs n kvs g v g' :
  ty_ok (TModel fs) = true -> ~ In n (names fs) -> lookup n kvs = None ->
  validate (TModel (fs ++ [((n, TDateTime), DefFactory FUtcnow)])) (JObj kvs) g = (Ok v, g') ->
  exists o s h, validate (TModel fs) (JObj kvs) g = (Ok (VModel o s), h)
    /\ names fs = map fst o
    /\ v = VModel (o ++ [(n, VDateTime (vdt_val (clock h (tick h))))]) s
    /\ get n v = Some (VDateTime (vdt_val (clock h (tick h))))
    /\ g' = snd (utcnow h).
Proof.
  intros Hok Hn Hl E; rewrite (validate_model_snoc_utcnow fs n kvs g Hl) in E.
  destruct (validate (TModel fs) (JObj kvs) g) as [r h] eqn:Eb.
  destruct r as [w|es]; [|discriminate E].
  pose proof (validate_wt _ Hok _ _ _ _ Eb) as Hw.
  destruct w as [| | | | | |o s]; try discriminate Hw.
  apply wt_fields_names in Hw.
  injection E as <- <-; exists o, s, h; split; [reflexivity|]; split; [exact Hw|].
  split; [reflexivity|]; split; [|reflexivity].
  cbn [get]; rewrite lookup_app_none by (rewrite <- Hw; exact Hn).
  cbn; rewrite String.eqb_refl; reflexivity.
Qed.

(** ** Properties of the models *)

(** X1: [AssignmentRead] and [CourseworkRead] validate an input without
    [updated_at] exactly as their base models do, then read the clock once
    more and append the reading as [updated_at]; errors are the base
    model's, unchanged. *)
Theorem X1_read_extends_base (b r : list field) (kvs : list (string * json)) (g : gen) :
  In (b, r) [(AssignmentBase_fields, AssignmentRead_fields);
             (CourseworkBase_fields, CourseworkRead_fields)] ->
  lookup "updated_at" kvs = None ->
  validate (TModel r) (JObj kvs) g
  = let '(res, h) := validate (TModel b) (JObj kvs) g in
    (match res with
     | Ok (VModel o s) =>
         Ok (VModel (o ++ [("updated_at", VDateTime (vdt_val (clock h (tick h))))]) s)
     | _ => res
     end, snd (utcnow h)).
Proof.
  intros Hin Hl; destruct Hin as [E|[E|[]]]; injection E as <- <-;
    [rewrite AssignmentRead_fields_snoc | rewrite CourseworkRead_fields_snoc];
    exact (validate_model_snoc_utcnow _ _ _ _ Hl).
Qed.

Lemma X1_witness :
  lookup "updated_at" hw1_doc = None
  /\ validate AssignmentRead hw1_input gen0
     = let '(res, h) := validate AssignmentBase hw1_input gen0 in
       (match res with
        | Ok (VModel o s) =>
            Ok (VModel (o ++ [("updated_at", VDateTime (vdt_val (clock h (tick h))))]) s)
        | _ => res
        end, snd (utcnow h)).
Proof.
  split; [reflexivity|].
  exact (X1_read_extends_base AssignmentBase_fields AssignmentRead_fields hw1_doc gen0
           ltac:(in_list) eq_refl).
Defined.

(** X2: when the input omits the timestamps, [CourseworkRead] takes its
    [updated_at] from the current clock reading, and [AssignmentRead] reads
    the clock twice: [created_at] is the current reading and [updated_at]
    the next one, so the two may differ. *)
Theorem X2_read_timestamps (kvs : list (string * json)) (g : gen) :
  lookup "updated_at" kvs = None ->
  (forall v g', validate CourseworkRead (JObj kvs) g = (Ok v, g') ->
     get "updated_at" v = Some (VDateTime (vdt_val (clock g (tick g))))
     /\ tick g' = S (tick g))
  /\ (lookup "created_at" kvs = None ->
      forall v g', validate AssignmentRead (JObj kvs) g = (Ok v, g') ->
      get "created_at" v = Some (VDateTime (vdt_val (clock g (tick g))))
      /\ get "updated_at" v = Some (VDateTime (vdt_val (clock g (S (tick g)))))
      /\ tick g' = S (S (tick g))).
Proof.
  intro Hu; split.
  - intros v g' E; unfold CourseworkRead in E; rewrite CourseworkRead_fields_snoc in E.
    destruct (validate_model_snoc_stamp _ _ _ _ _ _ (proj1 (proj2 schemas_ok))
                (carries_false CourseworkBase_fields "updated_at" eq_refl) Hu E) as (o & s & h & Eb & _ & _ & Hget & ->).
    pose proof (validate_tick CourseworkBase eq_refl (JObj kvs) g) as Ht.
    pose proof (validate_gen_le CourseworkBase (JObj kvs) g) as [_ [Hc _]].
    unfold CourseworkBase in Ht, Hc; rewrite Eb in Ht, Hc; cbn [snd] in Ht, Hc.
    rewrite Hget, Ht, Hc; split; [reflexivity | cbn; congruence].
  - intros Hc v g' E; unfold AssignmentRead in E; rewrite AssignmentRead_fields_snoc in E.
    destruct (validate_model_snoc_stamp _ _ _ _ _ _
                (proj1 (proj2 (proj2 (proj2 (proj2 (proj2 schemas_ok))))))
                (carries_false AssignmentBase_fields "updated_at" eq_refl) Hu E) as (o & s & h & Eb & Hno & -> & _ & ->).
    rewrite AssignmentBase_fields_snoc in Eb.
    destruct (validate_model_snoc_stamp (firstn 5 AssignmentBase_fields) _ _ _ _ _ eq_refl
                (carries_false (firstn 5 AssignmentBase_fields) "created_at" eq_refl) Hc Eb)
      as (o0 & s0 & h0 & E0 & _ & _ & Hget0 & ->).
    pose proof (validate_tick (TModel (firstn 5 AssignmentBase_fields)) eq_refl (JObj kvs) g) as Ht.
    pose proof (validate_gen_le (TModel (firstn 5 AssignmentBase_fields)) (JObj kvs) g)
      as [_ [Hcl _]].
    rewrite E0 in Ht, Hcl; cbn [snd] in Ht, Hcl.
    split; [|split].
    + cbn [get]; apply lookup_app_some; rewrite <- Ht, <- Hcl; exact Hget0.
    + cbn [get]; rewrite lookup_app_none
        by (rewrite <- Hno; exact (carries_false AssignmentBase_fields "updated_at" eq_refl)).
      cbn; rewrite Ht, Hcl; reflexivity.
    + cbn; rewrite Ht; reflexivity.
Qed.

Lemma X2_witness :
  lookup "updated_at" hw1_doc = None /\ lookup "created_at" hw1_doc = None
  /\ (forall v g', validate AssignmentRead hw1_input gen0 = (Ok v, g') ->
      get "created_at" v = Some (VDateTime (vdt_val (clock gen0 (tick gen0))))
      /\ get "updated_at" v = Some (VDateTime (vdt_val (clock gen0 (S (tick gen0)))))
      /\ tick g' = S (S (tick gen0))).
Proof.
  split; [reflexivity|]; split; [reflexivity|].
  exact (proj2 (X2_read_timestamps hw1_doc gen0 eq_refl) eq_refl).
Defined.

(** X3: the fields set of a validated patch ([model_fields_set], what
    [exclude_unset] keeps) lists exactly the fields the patch document
    supplies, in declaration order; a generated [id] or [created_at] is not
    in it unless supplied. *)
Theorem X3_update_fields_set (kvs : list (string * json)) (g : gen) (v : val) (g' : gen) :
  (validate AssignmentUpdate (JObj kvs) g = (Ok v, g') ->
   fields_set v = filter (present kvs)
                    ["id"; "title"; "description"; "due_date"; "coursework"; "created_at"])
  /\ (validate CourseworkUpdate (JObj kvs) g = (Ok v, g') ->
      fields_set v = filter (present kvs)
                       ["title"; "semester"; "professor"; "people"; "created_at"]).
Proof.
  split; intro E; exact (validate_model_set_exact _ _ _ _ _ E).
Qed.

Lemma X3_witness :
  exists v g', validate AssignmentUpdate (JObj [("title", JStr "HW1 (revised)")]) gen0
               = (Ok v, g')
    /\ fields_set v = ["title"].
Proof.
  destruct (validate AssignmentUpdate (JObj [("title", JStr "HW1 (revised)")]) gen0)
    as [res g'] eqn:E.
  pose proof E as E0; cbv -[uuid4_of] in E0; injection E0 as <- <-.
  eexists; eexists; split; [exact E|].
  exact (proj1 (X3_update_fields_set [("title", JStr "HW1 (revised)")] gen0 _ _) E).
Defined.

Lemma model_schemas_ok fs :
  In fs [AssignmentBase_fields; AssignmentCreate_fields; AssignmentUpdate_fields;
         AssignmentRead_fields; CourseworkBase_fields; CourseworkCreate_fields;
         CourseworkUpdate_fields; CourseworkRead_fields] ->
  ty_ok (TModel fs) = true.
Proof.
  pose proof schemas_ok as (_ & H1 & H2 & H3 & H4 & H5 & H6 & H7 & H8).
  intro Hin; repeat destruct Hin as [<-|Hin]; first [assumption | destruct Hin].
Qed.

(** X4: dumping a validated model to JSON and validating the dump again
    (from any generator state) succeeds without generating anything, gives
    back the same field values, and marks every field as set: after such a
    round trip a patch no longer tells which fields were supplied. *)
Theorem X4_dump_revalidate (fs : list field) (j : json) (g : gen) (v : val) (g' : gen) :
  In fs [AssignmentBase_fields; AssignmentCreate_fields; AssignmentUpdate_fields;
         AssignmentRead_fields; CourseworkBase_fields; CourseworkCreate_fields;
         CourseworkUpdate_fields; CourseworkRead_fields] ->
  validate (TModel fs) j g = (Ok v, g') ->
  (forall h, validate (TModel fs) (ser v) h = (Ok (fill v), h))
  /\ erase (fill v) = erase v
  /\ fields_set (fill v) = names fs.
Proof.
  intros Hin E; pose proof (model_schemas_ok fs Hin) as Hok.
  pose proof (validate_wt _ Hok _ _ _ _ E) as Hw.
  split; [intro h; exact (validate_ser _ Hok v h Hw)|]; split; [apply erase_fill|].
  destruct v as [| | | | | |o s]; try discriminate Hw.
  rewrite fields_set_fill; symmetry; exact (wt_fields_names _ _ _ Hw).
Qed.

Lemma X4_witness :
  exists v g', validate (TModel AssignmentUpdate_fields)
                 (JObj [("title", JStr "HW1 (revised)")]) gen0 = (Ok v, g')
    /\ fields_set v = ["title"]
    /\ fields_set (fill v)
       = ["id"; "title"; "description"; "due_date"; "coursework"; "created_at"].
Proof.
  destruct (validate (TModel AssignmentUpdate_fields)
              (JObj [("title", JStr "HW1 (revised)")]) gen0) as [res g'] eqn:E.
  pose proof E as E0; cbv -[uuid4_of] in E0; injection E0 as <- <-.
  eexists; eexists; split; [exact E|]; split; [reflexivity|].
  exact (proj2 (proj2 (X4_dump_revalidate AssignmentUpdate_fields _ gen0 _ _
                         ltac:(in_list) E))).
Defined.

(** X5: keys that a model does not declare are ignored: a [created_at] or
    [updated_at] sent to [CourseworkBase] or [CourseworkCreate], or an
    [updated_at] sent to [AssignmentBase], [AssignmentCreate] or either
    Update model, has no effect on the validation. *)
Theorem X5_ignored_keys (fs : list field) (k : string) (j : json) (kvs : list (string * json)) :
  In (fs, k) [(CourseworkBase_fields, "created_at"); (CourseworkBase_fields, "updated_at");
              (CourseworkCreate_fields, "created_at"); (CourseworkCreate_fields, "updated_at");
              (AssignmentBase_fields, "updated_at"); (AssignmentCreate_fields, "updated_at");
              (AssignmentUpdate_fields, "updated_at"); (CourseworkUpdate_fields, "updated_at")] ->
  validate (TModel fs) (JObj ((k, j) :: kvs)) = validate (TModel fs) (JObj kvs).
Proof.
  intro Hin; apply validate_model_extra.
  repeat destruct Hin as [E|Hin]; try (injection E as <- <-; reflexivity); destruct Hin.
Qed.

Lemma X5_witness :
  validate (TModel CourseworkCreate_fields)
    (JObj (("created_at", JStr "2025-01-15T10:20:30Z")
           :: coursework_doc (professor_doc "d@f.edu")))
  = validate (TModel CourseworkCreate_fields) (JObj (coursework_doc (professor_doc "d@f.edu"))).
Proof.
  exact (X5_ignored_keys CourseworkCreate_fields "created_at" _ _ ltac:(in_list)).
Defined.

(** X6: every model a successful validation builds is a well-formed value
    of its model: each field holds a value of its declared type, so UUIDs
    are 128-bit values, [due_date] is a real calendar date, timestamps are
    valid date-times and nested models are well-formed in turn. *)
Theorem X6_validated_well_formed (fs : list field) (j : json) (g : gen) (v : val) (g' : gen) :
  In fs [AssignmentBase_fields; AssignmentCreate_fields; AssignmentUpdate_fields;
         AssignmentRead_fields; CourseworkBase_fields; CourseworkCreate_fields;
         CourseworkUpdate_fields; CourseworkRead_fields] ->
  validate (TModel fs) j g = (Ok v, g') -> wtb (TModel fs) v = true.
Proof.
  intros Hin E; exact (validate_wt _ (model_schemas_ok fs Hin) _ _ _ _ E).
Qed.

Lemma X6_witness :
  exists v g', validate (TModel AssignmentCreate_fields) hw1_input gen0 = (Ok v, g')
    /\ wtb AssignmentCreate v = true.
Proof.
  destruct (validate (TModel AssignmentCreate_fields) hw1_input gen0) as [res g'] eqn:E.
  pose proof E as E0; cbv -[uuid4_of] in E0; injection E0 as <- <-.
  eexists; eexists; split; [exact E|].
  exact (X6_validated_well_formed AssignmentCreate_fields _ gen0 _ _ ltac:(in_list) E).
Defined.

(** Validation of a non-object against a model fails with [model_type]. *)
Lemma validate_model_not_obj fs j g :
  (forall kvs, j <> JObj kvs) ->
  exists es, fst (validate (TModel fs) j g) = Err es /\ In (mkerr [] "model_type") es.
Proof.
  intro Hj; destruct j; try (eexists; split; [reflexivity | left; reflexivity]).
  exfalso; exact (Hj _ eq_refl).
Qed.

Lemma validate_list_not_arr t j g :
  (forall js, j <> JArr js) ->
  exists es, fst (validate (TList t) j g) = Err es /\ In (mkerr [] "list_type") es.
Proof.
  intro Hj; destruct j; try (eexists; split; [reflexivity | left; reflexivity]).
  exfalso; exact (Hj _ eq_refl).
Qed.

(** X7: a [people] value that is not a list makes [CourseworkBase],
    [CourseworkCreate], [CourseworkRead] and (unless it is [null])
    [CourseworkUpdate] fail with a [list_type] error at [people]; an item of
    the list that is not an object makes them fail with a [model_type]
    error located at [people] and the item's index. *)
Theorem X7_people_errors (t : ty) (kvs : list (string * json)) (j : json) (g : gen) :
  In t [CourseworkBase; CourseworkCreate; CourseworkRead; CourseworkUpdate] ->
  lookup "people" kvs = Some j ->
  ((forall js, j <> JArr js) -> j <> JNull ->
   exists es, fst (validate t (JObj kvs) g) = Err es
              /\ In (mkerr [LKey "people"] "list_type") es)
  /\ (forall js i x, j = JArr js -> nth_error js i = Some x -> (forall pkvs, x <> JObj pkvs) ->
      exists es, fst (validate t (JObj kvs) g) = Err es
                 /\ In (mkerr [LKey "people"; LIdx i] "model_type") es).
Proof.
  intros Ht Hl.
  assert (Hf : exists d t', In (("people", t'), d)
                 (match t with TModel fs => fs | _ => [] end)
               /\ (t' = TList PersonBase \/ t' = TOpt (TList PersonBase))
               /\ t = TModel (match t with TModel fs => fs | _ => [] end)).
  { destruct Ht as [<-|[<-|[<-|[<-|[]]]]]; do 2 eexists;
      (split; [cbv [CourseworkRead_fields CourseworkUpdate_fields CourseworkCreate_fields
                    extend fold_left CourseworkBase_fields upsert CourseworkBase
                    CourseworkCreate CourseworkRead CourseworkUpdate]; in_list
              | split; [first [left; reflexivity | right; reflexivity] | reflexivity]]). }
  destruct Hf as (d & t' & Hin & Ht' & ->); split.
  - intros Hj Hn.
    refine (validate_model_nested _ kvs "people" t' d j (mkerr [] "list_type") g Hin Hl _).
    intro h; destruct Ht' as [->| ->]; [exact (validate_list_not_arr _ j h Hj)|].
    destruct j; try (exfalso; exact (Hj _ eq_refl)); try (exfalso; exact (Hn eq_refl));
      eexists; (split; [reflexivity | left; reflexivity]).
  - intros js i x -> Hi Hx.
    refine (validate_model_nested _ kvs "people" t' d (JArr js) (mkerr [LIdx i] "model_type")
              g Hin Hl _).
    intro h; destruct Ht' as [->| ->]; cbn [validate];
      exact (validate_list_nested PersonBase js i x (mkerr [] "model_type") h Hi
               (fun h => validate_model_not_obj _ x h Hx)).
Qed.

Lemma X7_witness :
  lookup "people" (("people", JArr [JStr "kj2634"]) :: coursework_doc (professor_doc "d@f.edu"))
  = Some (JArr [JStr "kj2634"])
  /\ exists es, fst (validate CourseworkCreate
                       (JObj (("people", JArr [JStr "kj2634"])
                              :: coursework_doc (professor_doc "d@f.edu"))) gen0) = Err es
       /\ In (mkerr [LKey "people"; LIdx 0%nat] "model_type") es.
Proof.
  split; [reflexivity|].
  exact (proj2 (X7_people_errors CourseworkCreate
                  (("people", JArr [JStr "kj2634"]) :: coursework_doc (professor_doc "d@f.edu"))
                  _ gen0 ltac:(in_list) eq_refl)
           [JStr "kj2634"] 0%nat (JStr "kj2634") eq_refl eq_refl ltac:(intros ? E; discriminate E)).
Defined.

(** X8: a [CourseworkBase], [CourseworkCreate] or [CourseworkRead]
    document that omits [people] validates to a model whose [people] is the
    empty list. *)
Theorem X8_people_default (fs : list field) (kvs : list (string * json)) (g : gen) (v : val) (g' : gen) :
  In fs [CourseworkBase_fields; CourseworkCreate_fields; CourseworkRead_fields] ->
  lookup "people" kvs = None ->
  validate (TModel fs) (JObj kvs) g = (Ok v, g') -> get "people" v = Some (VList []).
Proof.
  intros Hin Hl E.
  assert (Hf : NoDup (names fs) /\ In (("people", TList PersonBase), DefFactory FList) fs).
  { destruct Hin as [<-|[<-|[<-|[]]]]; (split; [apply nodupb_NoDup; reflexivity|]);
      cbv [CourseworkRead_fields CourseworkCreate_fields extend fold_left
           CourseworkBase_fields upsert]; in_list. }
  destruct Hf as [Hnd Hp].
  destruct (validate_model_factory fs kvs "people" _ FList g v g' Hnd Hp Hl E) as [h [_ ->]].
  reflexivity.
Qed.

Lemma X8_witness :
  exists v g', validate (TModel CourseworkCreate_fields)
                 (JObj (coursework_doc (professor_doc "d@f.edu"))) gen0 = (Ok v, g')
    /\ get "people" v = Some (VList []).
Proof.
  destruct (validate (TModel CourseworkCreate_fields)
              (JObj (coursework_doc (professor_doc "d@f.edu"))) gen0) as [res g'] eqn:E.
  pose proof E as E0; cbv -[uuid4_of] in E0; injection E0 as <- <-.
  eexists; eexists; split; [exact E|].
  exact (X8_people_default CourseworkCreate_fields (coursework_doc (professor_doc "d@f.edu"))
           gen0 _ _ ltac:(in_list) eq_refl E).
Defined.

(** X9: the remaining required fields are required too: an input omitting [coursework] fails as
    [AssignmentBase] and [AssignmentCreate], one omitting [professor] fails
    as [CourseworkBase] and [CourseworkCreate], and the Read models fail on
    an omitted [title], [description], [due_date], [coursework], [semester]
    or [professor]; each with a [missing] error at that field. *)
Theorem X9_missing_required (fs : list field) (n : string) (kvs : list (string * json)) (g : gen) :
  In (fs, n) [(AssignmentBase_fields, "coursework"); (AssignmentCreate_fields, "coursework");
              (AssignmentRead_fields, "title"); (AssignmentRead_fields, "description");
              (AssignmentRead_fields, "due_date"); (AssignmentRead_fields, "coursework");
              (CourseworkBase_fields, "professor"); (CourseworkCreate_fields, "professor");
              (CourseworkRead_fields, "title"); (CourseworkRead_fields, "semester");
              (CourseworkRead_fields, "professor")] ->
  lookup n kvs = None ->
  exists es, fst (validate (TModel fs) (JObj kvs) g) = Err es
             /\ In (mkerr [LKey n] "missing") es.
Proof.
  intros Hin Hl; repeat destruct Hin as [E|Hin];
    try (injection E as <- <-; eapply validate_model_missing; [|exact Hl];
         cbv [AssignmentRead_fields CourseworkRead_fields AssignmentCreate_fields
              CourseworkCreate_fields extend fold_left upsert
              AssignmentBase_fields CourseworkBase_fields]; in_list).
  destruct Hin.
Qed.

Lemma X9_witness :
  lookup "professor" [("title", JStr "CC"); ("semester", JStr "Fall 2025")] = None
  /\ exists es, fst (validate (TModel CourseworkCreate_fields)
                       (JObj [("title", JStr "CC"); ("semester", JStr "Fall 2025")]) gen0)
                = Err es
       /\ In (mkerr [LKey "professor"] "missing") es.
Proof.
  split; [reflexivity|].
  exact (X9_missing_required CourseworkCreate_fields "professor"
           [("title", JStr "CC"); ("semester", JStr "Fall 2025")] gen0 ltac:(in_list) eq_refl).
Defined.

Lemma validate_datetime_str s d g :
  parse_datetime (list_ascii_of_string s) = Some d ->
  validate TDateTime (JStr s) g = (Ok (VDateTime d), g).
Proof. intro H; cbn [validate]; rewrite H; reflexivity. Qed.

(** X10: the Read models keep what the stored record supplies: a valid
    UUID string as [id] and valid date-time strings as [created_at] or
    [updated_at] become those values, no fresh UUID or clock reading
    replaces them. *)
Theorem X10_read_keeps_supplied (kvs : list (string * json)) (g : gen) (v : val) (g' : gen) :
  (forall fs s u, In fs [AssignmentRead_fields; CourseworkRead_fields] ->
     lookup "id" kvs = Some (JStr s) -> parse_uuid (list_ascii_of_string s) = Some u ->
     validate (TModel fs) (JObj kvs) g = (Ok v, g') -> get "id" v = Some (VUuid u))
  /\ (forall fs n s d, In (fs, n) [(AssignmentRead_fields, "created_at");
                                   (AssignmentRead_fields, "updated_at");
                                   (CourseworkRead_fields, "updated_at")] ->
     lookup n kvs = Some (JStr s) -> parse_datetime (list_ascii_of_string s) = Some d ->
     validate (TModel fs) (JObj kvs) g = (Ok v, g') -> get n v = Some (VDateTime d)).
Proof.
  split.
  - intros fs s u Hin Hl Hp E.
    refine (validate_model_present fs kvs "id" TUuid (DefFactory FUuid4) (JStr s) (VUuid u)
              g v g' _ _ Hl (fun h => validate_uuid_str s u h Hp) E);
      destruct Hin as [<-|[<-|[]]]; (apply nodupb_NoDup; reflexivity) || (cbv; in_list).
  - intros fs n s d Hin Hl Hp E.
    refine (validate_model_present fs kvs n TDateTime (DefFactory FUtcnow) (JStr s) (VDateTime d)
              g v g' _ _ Hl (fun h => validate_datetime_str s d h Hp) E);
      destruct Hin as [E'|[E'|[E'|[]]]]; injection E' as <- <-;
      (apply nodupb_NoDup; reflexivity) || (cbv; in_list).
Qed.

Lemma X10_witness :
  exists u v g', parse_uuid (list_ascii_of_string sample_uuid) = Some u
    /\ validate (TModel AssignmentRead_fields) (JObj (("id", JStr sample_uuid) :: hw1_doc)) gen0
       = (Ok v, g')
    /\ get "id" v = Some (VUuid u).
Proof.
  destruct (parse_uuid (list_ascii_of_string sample_uuid)) as [u|] eqn:Hp;
    [|vm_compute in Hp; discriminate Hp].
  destruct (validate (TModel AssignmentRead_fields) (JObj (("id", JStr sample_uuid) :: hw1_doc))
              gen0) as [res g'] eqn:E.
  pose proof E as E0; cbv -[uuid4_of] in E0; injection E0 as <- <-.
  do 3 eexists; split; [reflexivity|]; split; [exact E|].
  exact (proj1 (X10_read_keeps_supplied (("id", JStr sample_uuid) :: hw1_doc) gen0 _ _)
           AssignmentRead_fields sample_uuid u ltac:(in_list) eq_refl Hp E).
Defined.

(** X11: [AssignmentUpdate] accepts an explicit [null] for [id]: the
    validated patch has [id] set to [None] (no UUID is generated for it) and
    [id] counts as supplied in its fields set. *)
Theorem X11_update_id_null (kvs : list (string * json)) (g : gen) (v : val) (g' : gen) :
  lookup "id" kvs = Some JNull ->
  validate AssignmentUpdate (JObj kvs) g = (Ok v, g') ->
  get "id" v = Some VNone /\ In "id" (fields_set v).
Proof.
  intros Hl E; split.
  - refine (validate_model_present AssignmentUpdate_fields kvs "id" (TOpt TUuid)
              (DefFactory FUuid4) JNull VNone g v g' _ _ Hl (fun h => eq_refl) E);
      [apply nodupb_NoDup; reflexivity | cbv; in_list].
  - rewrite (validate_model_set_exact _ _ _ _ _ E).
    cbv [names map fname fst AssignmentUpdate_fields]; cbn [filter].
    unfold present at 1; rewrite Hl; left; reflexivity.
Qed.

Lemma X11_witness :
  lookup "id" [("id", JNull); ("title", JStr "HW1 (revised)")] = Some JNull
  /\ exists v g', validate AssignmentUpdate (JObj [("id", JNull); ("title", JStr "HW1 (revised)")])
                   gen0 = (Ok v, g')
       /\ get "id" v = Some VNone /\ In "id" (fields_set v).
Proof.
  split; [reflexivity|].
  destruct (validate AssignmentUpdate (JObj [("id", JNull); ("title", JStr "HW1 (revised)")]) gen0)
    as [res g'] eqn:E.
  pose proof E as E0; vm_compute in E0; injection E0 as <- <-.
  eexists; eexists; split; [exact E|].
  exact (X11_update_id_null [("id", JNull); ("title", JStr "HW1 (revised)")] gen0 _ _ eq_refl E).
Defined.

(** X12: validating against [AssignmentUpdate], [CourseworkBase] or
    [CourseworkCreate] never reads the clock, whatever the input (the nested
    [PersonBase], modelled from the spec, has no timestamp either). *)
Theorem X12_no_clock (t : ty) (j : json) (g : gen) :
  In t [AssignmentUpdate; CourseworkBase; CourseworkCreate] ->
  tick (snd (validate t j g)) = tick g.
Proof.
  intro Hin; apply validate_tick; destruct Hin as [<-|[<-|[<-|[]]]]; reflexivity.
Qed.

Lemma X12_witness : tick (snd (validate AssignmentUpdate hw1_input gen0)) = tick gen0.
Proof. exact (X12_no_clock AssignmentUpdate hw1_input gen0 ltac:(in_list)). Defined.

(** X13: the [coursework] of an assignment is validated as a whole
    [CourseworkBase], also in [AssignmentUpdate]: a [coursework] object that
    omits [title], [semester] or [professor] makes every Assignment model
    fail, with a [missing] error at that nested field; a patch cannot
    change part of the coursework. *)
Theorem X13_coursework_whole (t : ty) (kvs ckvs : list (string * json)) (n : string) (g : gen) :
  In t [AssignmentBase; AssignmentCreate; AssignmentUpdate; AssignmentRead] ->
  lookup "coursework" kvs = Some (JObj ckvs) ->
  In n ["title"; "semester"; "professor"] -> lookup n ckvs = None ->
  exists es, fst (validate t (JObj kvs) g) = Err es
             /\ In (mkerr [LKey "coursework"; LKey n] "missing") es.
Proof.
  intros Ht Hl Hn Hc.
  assert (Hf : exists d t', In (("coursework", t'), d)
                 (match t with TModel fs => fs | _ => [] end)
               /\ (t' = CourseworkBase \/ t' = TOpt CourseworkBase)
               /\ t = TModel (match t with TModel fs => fs | _ => [] end)).
  { destruct Ht as [<-|[<-|[<-|[<-|[]]]]]; do 2 eexists;
      (split; [cbv [AssignmentRead_fields AssignmentUpdate_fields AssignmentCreate_fields
                    extend fold_left AssignmentBase_fields upsert AssignmentBase
                    AssignmentCreate AssignmentRead AssignmentUpdate]; in_list
              | split; [first [left; reflexivity | right; reflexivity] | reflexivity]]). }
  destruct Hf as (d & t' & Hin & Ht' & ->).
  refine (validate_model_nested _ kvs "coursework" t' d (JObj ckvs) (mkerr [LKey n] "missing")
            g Hin Hl _).
  assert (Hm : exists tn, In ((n, tn), Required) CourseworkBase_fields).
  { destruct Hn as [<-|[<-|[<-|[]]]]; eexists; cbv [CourseworkBase_fields]; in_list. }
  destruct Hm as [tn Hm].
  intro h; destruct Ht' as [->| ->]; cbn [validate];
    exact (validate_model_missing CourseworkBase_fields ckvs n tn h Hm Hc).
Qed.

Lemma X13_witness :
  lookup "coursework" (assignment_doc [("title", JStr "CC"); ("semester", JStr "Fall 2025")])
  = Some (JObj [("title", JStr "CC"); ("semester", JStr "Fall 2025")])
  /\ lookup "professor" [("title", JStr "CC"); ("semester", JStr "Fall 2025")] = None
  /\ exists es, fst (validate AssignmentUpdate
                       (JObj (assignment_doc [("title", JStr "CC"); ("semester", JStr "Fall 2025")]))
                       gen0) = Err es
       /\ In (mkerr [LKey "coursework"; LKey "professor"] "missing") es.
Proof.
  split; [reflexivity|]; split; [reflexivity|].
  exact (X13_coursework_whole AssignmentUpdate
           (assignment_doc [("title", JStr "CC"); ("semester", JStr "Fall 2025")])
           [("title", JStr "CC"); ("semester", JStr "Fall 2025")] "professor" gen0
           ltac:(in_list) eq_refl ltac:(in_list) eq_refl).
Defined.

(** X14: a [CourseworkUpdate] patch that supplies a valid [created_at]
    keeps that timestamp, and its validation does not read the clock at
    all. *)
Theorem X14_update_created_at_supplied (kvs : list (string * json)) (s : string) (d : datetime)
  (g : gen) (v : val) (g' : gen) :
  lookup "created_at" kvs = Some (JStr s) -> parse_datetime (list_ascii_of_string s) = Some d ->
  validate CourseworkUpdate (JObj kvs) g = (Ok v, g') ->
  get "created_at" v = Some (VDateTime d) /\ tick g' = tick g.
Proof.
  intros Hl Hp E; split.
  - refine (validate_model_present CourseworkUpdate_fields kvs "created_at" TDateTime
              (DefFactory FUtcnow) (JStr s) (VDateTime d) g v g' _ _ Hl
              (fun h => validate_datetime_str s d h Hp) E);
      [apply nodupb_NoDup; reflexivity | cbv; in_list].
  - assert (HF : Forall (fun f : field => match snd f with
                                        | DefFactory FUtcnow => present kvs (fname f) = true
                                        | _ => True end
              /\ forall j g, tick (snd (validate (snd (fst f)) j g)) = tick g)
              CourseworkUpdate_fields).
    { cbv [CourseworkUpdate_fields];
        repeat apply Forall_cons; try apply Forall_nil;
        (split; [cbv [snd fst fname]; first [exact I | unfold present; rewrite Hl; reflexivity]
                | apply validate_tick; reflexivity]). }
    assert (Ht : tick (snd (validate CourseworkUpdate (JObj kvs) g)) = tick g).
    { unfold CourseworkUpdate; cbn [validate]; unfold bind, ret; cbv beta.
      pose proof (validate_fields_tick kvs CourseworkUpdate_fields g HF) as H1.
      destruct (validate_fields validate kvs CourseworkUpdate_fields g) as [[[o st] es] h].
      exact H1. }
    rewrite E in Ht; exact Ht.
Qed.

Lemma X14_witness :
  exists d v g',
    parse_datetime (list_ascii_of_string "2025-01-15T10:20:30Z") = Some d
    /\ validate CourseworkUpdate (JObj [("created_at", JStr "2025-01-15T10:20:30Z")]) gen0
       = (Ok v, g')
    /\ get "created_at" v = Some (VDateTime d) /\ tick g' = tick gen0.
Proof.
  destruct (parse_datetime (list_ascii_of_string "2025-01-15T10:20:30Z")) as [d|] eqn:Hp;
    [|vm_compute in Hp; discriminate Hp].
  destruct (validate CourseworkUpdate (JObj [("created_at", JStr "2025-01-15T10:20:30Z")]) gen0)
    as [res g'] eqn:E.
  pose proof E as E0; vm_compute in E0; injection E0 as <- <-.
  do 3 eexists; split; [reflexivity|]; split; [exact E|].
  exact (X14_update_created_at_supplied [("created_at", JStr "2025-01-15T10:20:30Z")]
           "2025-01-15T10:20:30Z" d gen0 _ _ eq_refl Hp E).
Defined.

(** ** Where [missing] errors come from *)

Lemma prefix_loc li es e : In e (prefix li es) -> loc e <> [].
Proof. unfold prefix; intro H; apply in_map_iff in H as [e' [<- _]]; discriminate. Qed.

Lemma validate_items_locs vt i js g e :
  In e (snd (fst (validate_items vt i js g))) -> loc e <> [].
Proof.
  revert i g; induction js as [|j js IH]; intros i g; [intros []|].
  cbn [validate_items]; unfold bind, ret; cbv beta.
  destruct (vt j g) as [r h]; pose proof (IH (S i) h) as IH'.
  destruct (validate_items vt (S i) js h) as [[vs es] k]; cbn in IH' |- *.
  destruct r; cbn; [exact IH'|].
  intro Hin; apply in_app_or in Hin as [Hin|Hin]; [exact (prefix_loc _ _ _ Hin) | exact (IH' Hin)].
Qed.

Lemma validate_fields_locs vt kvs fs g e :
  In e (snd (fst (validate_fields vt kvs fs g))) -> loc e <> [].
Proof.
  revert g; induction fs as [|[[n t] d] fs IH]; intro g; [intros []|].
  cbn [validate_fields]; destruct (lookup n kvs) as [j|].
  - unfold bind, ret; cbv beta.
    destruct (vt t j g) as [r h]; pose proof (IH h) as IH'.
    destruct (validate_fields vt kvs fs h) as [[[o s] es] k]; cbn in IH' |- *.
    destruct r; cbn; [exact IH'|].
    intro Hin; apply in_app_or in Hin as [Hin|Hin];
      [exact (prefix_loc _ _ _ Hin) | exact (IH' Hin)].
  - destruct d as [| |f]; unfold bind, ret; cbv beta;
      [| |destruct (run_factory f g) as [v h0]];
      [set (h := g) | set (h := g) | set (h := h0)];
      pose proof (IH h) as IH';
      destruct (validate_fields vt kvs fs h) as [[[o s] es] k]; cbn in IH' |- *;
      [intros [<-|Hin]; [discriminate | exact (IH' Hin)] | exact IH' | exact IH'].
Qed.

Ltac leaf_errors E :=
  cbn [validate] in E; unfold ret, validate_str, err1 in E; cbv beta in E; cbn [fst] in E;
  repeat match type of E with
         | context [match ?x with _ => _ end] => destruct x
         end;
  try discriminate E; injection E as <-.

(** A validation error without location (the value itself is rejected) is
    never a [missing] error. *)
Lemma validate_top_errors t j g es e :
  fst (validate t j g) = Err es -> In e es -> loc e = [] -> kind e <> "missing".
Proof.
  revert j g es e; induction t; intros j g es e E Hin Hl;
    try (leaf_errors E; destruct Hin as [<-|[]]; discriminate).
  - cbn [validate] in E; destruct j; try exact (IHt _ _ _ _ E Hin Hl); discriminate E.
  - cbn [validate] in E; destruct j;
      try (unfold ret, err1 in E; cbn [fst] in E; injection E as <-;
           destruct Hin as [<-|[]]; discriminate).
    unfold bind, ret in E; cbv beta in E.
    pose proof (validate_items_locs (validate t) 0 l g e) as H.
    destruct (validate_items (validate t) 0 l g) as [[vs es'] h]; cbn in E, H.
    destruct es'; [discriminate E|]; injection E as <-; exfalso; exact (H Hin Hl).
  - cbn [validate] in E; destruct j;
      try (unfold ret, err1 in E; cbn [fst] in E; injection E as <-;
           destruct Hin as [<-|[]]; discriminate).
    unfold bind, ret in E; cbv beta in E.
    pose proof (validate_fields_locs validate kvs fs g e) as H.
    destruct (validate_fields validate kvs fs g) as [[[o s] es'] h]; cbn in E, H.
    destruct es'; [discriminate E|]; injection E as <-; exfalso; exact (H Hin Hl).
Qed.

(** A [missing] error located at a field of the model itself comes from a
    required field that the input omits. *)
Lemma validate_fields_missing_top kvs fs g n :
  In (mkerr [LKey n] "missing") (snd (fst (validate_fields validate kvs fs g))) ->
  exists t, In ((n, t), Required) fs /\ lookup n kvs = None.
Proof.
  revert g; induction fs as [|[[m t] d] fs IH]; intro g; [intros []|].
  cbn [validate_fields]; destruct (lookup m kvs) as [j|] eqn:Hm.
  - unfold bind, ret; cbv beta.
    destruct (validate t j g) as [r h] eqn:Er; pose proof (IH h) as IH'.
    destruct (validate_fields validate kvs fs h) as [[[o s] es] k]; cbn in IH' |- *.
    intro Hin; destruct r as [v|es'];
      [|apply in_app_or in Hin as [Hin|Hin]].
    + destruct (IH' Hin) as [t' [Ht Hl]]; exists t'; split; [right; exact Ht | exact Hl].
    + unfold prefix in Hin; apply in_map_iff in Hin as [e [He Hin]].
      injection He as _ He1 He2.
      exfalso; apply (validate_top_errors t j g es' e); [rewrite Er; reflexivity | exact Hin | exact He1 | exact He2].
    + destruct (IH' Hin) as [t' [Ht Hl]]; exists t'; split; [right; exact Ht | exact Hl].
  - destruct d as [| |f]; unfold bind, ret; cbv beta;
      [| |destruct (run_factory f g) as [v h0]];
      [set (h := g) | set (h := g) | set (h := h0)];
      pose proof (IH h) as IH';
      destruct (validate_fields validate kvs fs h) as [[[o s] es] k]; cbn in IH' |- *;
      [intros [E|Hin]; [injection E as ->; exists t; split; [left; reflexivity | exact Hm]|] | intro Hin | intro Hin];
      destruct (IH' Hin) as [t' [Ht Hl]]; exists t'; split; [right; exact Ht | exact Hl | right; exact Ht | exact Hl | right; exact Ht | exact Hl].
Qed.

(** X15: a [missing] error at a field of a model (any model, nested ones
    included) is only ever reported for a required field that the input
    omits; the Update models have no
    required field, so a patch never fails for an omitted field. *)
Theorem X15_missing_only_required (fs : list field) (kvs : list (string * json)) (g : gen)
  (es : list error) (n : string) :
  fst (validate (TModel fs) (JObj kvs) g) = Err es ->
  (In (mkerr [LKey n] "missing") es -> lookup n kvs = None /\ exists t, In ((n, t), Required) fs)
  /\ (In fs [AssignmentUpdate_fields; CourseworkUpdate_fields] ->
      ~ In (mkerr [LKey n] "missing") es).
Proof.
  intro E.
  assert (H : In (mkerr [LKey n] "missing") es -> exists t, In ((n, t), Required) fs
                                                   /\ lookup n kvs = None).
  { intro Hin; apply (validate_fields_missing_top kvs fs g n).
    cbn [validate] in E; unfold bind, ret in E; cbv beta in E.
    destruct (validate_fields validate kvs fs g) as [[[o s] es'] h]; cbn in E |- *.
    destruct es'; [discriminate E|]; injection E as <-; exact Hin. }
  split.
  - intro Hin; destruct (H Hin) as [t [Ht Hl]]; split; [exact Hl | exists t; exact Ht].
  - intros Hu Hin; destruct (H Hin) as [t [Ht _]].
    destruct Hu as [<-|[<-|[]]]; cbv in Ht;
      repeat destruct Ht as [Ht|Ht]; try discriminate Ht; exact Ht.
Qed.

Lemma X15_witness :
  exists es, fst (validate CourseworkUpdate (JObj [("title", JNum 3)]) gen0) = Err es
    /\ ~ In (mkerr [LKey "semester"] "missing") es.
Proof.
  destruct (validate CourseworkUpdate (JObj [("title", JNum 3)]) gen0) as [res g'] eqn:E.
  pose proof E as E0; vm_compute in E0; injection E0 as <- <-.
  eexists; split; [reflexivity|].
  refine (proj2 (X15_missing_only_required CourseworkUpdate_fields [("title", JNum 3)] gen0 _
                   "semester" _) ltac:(in_list)).
  exact (f_equal fst E).
Defined.
